(** * The chat controller hook [useChatWithGemini] and the [Chat] page

    A shallow embedding of [src/hooks/useChatWithGemini.ts] and of the parts
    of the [Chat] page component that decide what is loaded and displayed.

    - JavaScript strings are sequences of UTF-16 code units ([list N]).
    - The hook's callbacks are programs of a small state/exception/writer
      monad [M]: they read and write the React state of the hook, may throw,
      and emit the observable effects (state setter calls, toasts, console
      output, requests to the backend with the reply received).
    - The backend (Supabase tables, the [gemini-chat] function, the clock and
      [crypto.randomUUID]) is an interface [Env]; the callbacks are written
      against it exactly as the source is written against the client
      library.  [Cloud] is a reference instance with tables and scripted
      faults. *)

From Stdlib Require Import List NArith Bool String Ascii Lia Permutation Sorted.
Import ListNotations.

Set Implicit Arguments.

(* ================================================================== *)
(** ** JavaScript strings *)

Module JS.

Definition jsstring := list N.

(** A source literal (ASCII) as code units. *)
Definition str (s : string) : jsstring :=
  map N_of_ascii (list_ascii_of_string s).

Fixpoint eqb (a b : jsstring) : bool :=
  match a, b with
  | [], [] => true
  | x :: a', y :: b' => N.eqb x y && eqb a' b'
  | _, _ => false
  end.

(** [ToBoolean] on a string: only the empty string is falsy. *)
Definition truthy (s : jsstring) : bool :=
  match s with [] => false | _ :: _ => true end.

(** [ToBoolean] on [string | null | undefined]. *)
Definition truthy_opt (o : option jsstring) : bool :=
  match o with None => false | Some s => truthy s end.

(** [a || b] for strings. *)
Definition or_else (o : option jsstring) (d : jsstring) : jsstring :=
  match o with
  | Some s => if truthy s then s else d
  | None => d
  end.

(** ECMAScript [WhiteSpace] and [LineTerminator] code points, the set
    stripped by [String.prototype.trim]. *)
Definition isWhiteSpace (c : N) : bool :=
  ((9 <=? c) && (c <=? 13)      (* TAB, LF, VT, FF, CR *)
   || (c =? 32)                 (* SPACE *)
   || (c =? 160)                (* NBSP *)
   || (c =? 5760)               (* U+1680 *)
   || ((8192 <=? c) && (c <=? 8202))   (* U+2000 .. U+200A *)
   || (c =? 8232) || (c =? 8233)       (* LS, PS *)
   || (c =? 8239)               (* U+202F *)
   || (c =? 8287)               (* U+205F *)
   || (c =? 12288)              (* U+3000 *)
   || (c =? 65279))%N.          (* U+FEFF *)

Fixpoint trimStart (s : jsstring) : jsstring :=
  match s with
  | [] => []
  | c :: t => if isWhiteSpace c then trimStart t else s
  end.

Definition trimEnd (s : jsstring) : jsstring := rev (trimStart (rev s)).

Definition trim (s : jsstring) : jsstring := trimEnd (trimStart s).

(** *** A matcher for anchored patterns made of literals and counted
    character classes, enough for [uuidRegex]. *)

Inductive Term :=
| Class (ranges : list (N * N)) (count : nat)   (* [a-b...]{count} *)
| Literal (c : N).

(** [Canonicalize] of the [i] flag without the [u] flag, on ASCII.  For a
    code unit of 128 or more the specification never yields a value below
    128, so against classes of ASCII characters leaving it in place gives
    the same answer. *)
Definition canonicalize (c : N) : N :=
  if ((97 <=? c) && (c <=? 122))%N then (c - 32)%N else c.

Definition members (r : N * N) : list N :=
  map (fun i => (fst r + N.of_nat i)%N)
      (seq 0 (N.to_nat (snd r + 1 - fst r))).

Definition in_class (ignoreCase : bool) (ranges : list (N * N)) (c : N) : bool :=
  existsb (fun r =>
             if ignoreCase
             then existsb (fun a => (canonicalize a =? canonicalize c)%N) (members r)
             else ((fst r <=? c) && (c <=? snd r))%N)
          ranges.

Fixpoint match_class (p : N -> bool) (count : nat) (s : jsstring)
  : option jsstring :=
  match count with
  | O => Some s
  | S n =>
      match s with
      | c :: t => if p c then match_class p n t else None
      | [] => None
      end
  end.

Fixpoint match_terms (ignoreCase : bool) (ts : list Term) (s : jsstring)
  : option jsstring :=
  match ts with
  | [] => Some s
  | Class rs n :: ts' =>
      match match_class (in_class ignoreCase rs) n s with
      | Some rest => match_terms ignoreCase ts' rest
      | None => None
      end
  | Literal c :: ts' =>
      match s with
      | d :: rest =>
          if (if ignoreCase then (canonicalize c =? canonicalize d)%N
              else (c =? d)%N)
          then match_terms ignoreCase ts' rest else None
      | [] => None
      end
  end.

(** [/^ts$/.test(s)], with flag [i] when [ignoreCase]. *)
Definition test (ignoreCase : bool) (ts : list Term) (s : jsstring) : bool :=
  match match_terms ignoreCase ts s with
  | Some [] => true
  | _ => false
  end.

End JS.

Import JS.

(* ================================================================== *)
(** ** Data model *)

Inductive Role := user | assistant.

(** [type Message = { role: "user" | "assistant"; content: string }] *)
Record Message := mkMessage { role : Role; content : jsstring }.

(** The authenticated user of [useAuth]; the hook reads [user.id] only. *)
Module User.
Record t := make { id : jsstring }.
End User.

Definition Time := N.

(** Rows of [chat_sessions]. *)
Module ChatSession.
Record t := make {
  id : jsstring;
  agent_id : jsstring;
  user_id : jsstring;
  title : jsstring;
  created_at : Time;
  updated_at : Time
}.
End ChatSession.

(** Rows of [chat_messages]; [created_at] is filled in by the table.  The
    source reads [msg.role] at the type of [Message.role]. *)
Module ChatMessage.
Record insert := make_insert {
  i_session_id : jsstring;
  i_role : Role;
  i_content : jsstring
}.
Record t := make {
  session_id : jsstring;
  role : Role;
  content : jsstring;
  created_at : Time
}.
End ChatMessage.

(** Rows of [agents]; the configuration columns are opaque to the hook. *)
Module Agent.
Record t := make {
  id : jsstring;
  name : jsstring;
  description : option jsstring
}.
End Agent.

(** A thrown or reported error; only [message] is ever read. *)
Record Error := mkError { message : jsstring }.

(** The [{ data, error }] pair every client call resolves to. *)
Record Result (A : Type) := mkResult { data : option A; error : option Error }.

(** A promise either resolves or rejects. *)
Inductive Reply (A : Type) :=
| Resolved (a : A)
| Rejected (e : Error).
Arguments Rejected {A} e.

(** Request body and payload of the [gemini-chat] function. *)
Record InvokeBody := mkBody {
  body_messages : list Message;
  body_agentConfig : option Agent.t;
  body_apiKey : option jsstring
}.

Record Generated := mkGenerated { generatedText : option jsstring }.

(* ================================================================== *)
(** ** Observable effects *)

Inductive Variant := destructive.

Module Toast.
Record t := make {
  title : jsstring;
  description : jsstring;
  variant : Variant
}.
End Toast.

Inductive Level := LevelLog | LevelError.

Inductive LogArg :=
| LStr (s : jsstring)
| LNum (n : nat)
| LErr (e : Error)
| LJson (ms : list Message).

Inductive Request :=
| InsertMessage (row : ChatMessage.insert)
| InsertSession (row : ChatSession.t)
| SelectSession (id : jsstring)
| SelectMessages (session_id : jsstring)
| SelectAgent (id : jsstring)
| Invoke (fn : jsstring) (body : InvokeBody).

Inductive Response :=
| Failed (e : Error)                       (* the promise rejected *)
| Written (r : Result unit)
| SessionRow (r : Result ChatSession.t)
| MessageRows (r : Result (list ChatMessage.t))
| AgentRow (r : Result Agent.t)
| Invoked (r : Result Generated).

Inductive Event :=
| SetMessages (now : list Message)
| SetIsLoading (now : bool)
| SetSessionId (now : option jsstring)
| ToastShown (t : Toast.t)
| Console (level : Level) (args : list LogArg)
| Net (req : Request) (resp : Response)
| ReplaceState (path : jsstring) (params : list (jsstring * jsstring)).

(* ================================================================== *)
(** ** The environment the hook runs against *)

Class Env (B : Type) := {
  insert_message : ChatMessage.insert -> B -> Reply (Result unit) * B;
  insert_session : ChatSession.t -> B -> Reply (Result ChatSession.t) * B;
  select_session : jsstring -> B -> Reply (Result ChatSession.t) * B;
  select_messages : jsstring -> B -> Reply (Result (list ChatMessage.t)) * B;
  select_agent : jsstring -> B -> Reply (Result Agent.t) * B;
  functions_invoke : jsstring -> InvokeBody -> B -> Reply (Result Generated) * B;
  randomUUID : B -> jsstring * B;
  new_Date : B -> Time * B
}.

(* ================================================================== *)
(** ** State and the monad of callbacks *)

(** The three [useState] cells of the hook. *)
Record HookState := mkHook {
  messages : list Message;
  isLoading : bool;
  sessionId : option jsstring
}.

(** [window.location]: path and parsed query. *)
Record Location := mkLocation {
  pathname : jsstring;
  search : list (jsstring * jsstring)
}.

Record Store (B : Type) := mkStore {
  hook : HookState;
  location : Location;
  ext : B
}.

(** What a callback closes over: the values of the render that created it. *)
Record Render := mkRender {
  r_agentId : jsstring;
  r_user : option User.t;
  r_messages : list Message;
  r_sessionId : option jsstring
}.

Inductive Completion (A : Type) :=
| Normal (a : A)
| Throw (e : Error).
Arguments Throw {A} e.

Definition M (B A : Type) : Type :=
  Store B -> Completion A * Store B * list Event.

Definition completion {B A} (x : Completion A * Store B * list Event) :=
  fst (fst x).
Definition store_after {B A} (x : Completion A * Store B * list Event) :=
  snd (fst x).
Definition emitted {B A} (x : Completion A * Store B * list Event) :=
  snd x.

Section Monad.

Context {B : Type}.

Definition ret {A} (a : A) : M B A := fun s => (Normal a, s, []).

Definition bind {A C} (m : M B A) (k : A -> M B C) : M B C :=
  fun s =>
    match m s with
    | (Normal a, s1, ev1) =>
        let '(c, s2, ev2) := k a s1 in (c, s2, ev1 ++ ev2)
    | (Throw e, s1, ev1) => (Throw e, s1, ev1)
    end.

Definition throw {A} (e : Error) : M B A := fun s => (Throw e, s, []).

(** [try { body } catch (error) { handler error }] *)
Definition try_catch {A} (body : M B A) (handler : Error -> M B A) : M B A :=
  fun s =>
    match body s with
    | (Normal a, s1, ev1) => (Normal a, s1, ev1)
    | (Throw e, s1, ev1) =>
        let '(c, s2, ev2) := handler e s1 in (c, s2, ev1 ++ ev2)
    end.

(** [try { body } finally { fin }]: [fin] runs on both completions and
    keeps the completion of [body] unless [fin] itself throws. *)
Definition finally {A} (body : M B A) (fin : M B unit) : M B A :=
  fun s =>
    let '(c, s1, ev1) := body s in
    match fin s1 with
    | (Normal _, s2, ev2) => (c, s2, ev1 ++ ev2)
    | (Throw e, s2, ev2) => (Throw e, s2, ev1 ++ ev2)
    end.

Definition emit (e : Event) : M B unit := fun s => (Normal tt, s, [e]).

(** *** React state setters *)

Definition setMessages (f : list Message -> list Message) : M B unit :=
  fun s =>
    let h := hook s in
    let now := f (messages h) in
    (Normal tt,
     mkStore (mkHook now (isLoading h) (sessionId h)) (location s) (ext s),
     [SetMessages now]).

Definition setIsLoading (b : bool) : M B unit :=
  fun s =>
    let h := hook s in
    (Normal tt,
     mkStore (mkHook (messages h) b (sessionId h)) (location s) (ext s),
     [SetIsLoading b]).

Definition setSessionId (v : option jsstring) : M B unit :=
  fun s =>
    let h := hook s in
    (Normal tt,
     mkStore (mkHook (messages h) (isLoading h) v) (location s) (ext s),
     [SetSessionId v]).

(** *** Toasts, console, requests *)

Definition toast_error (t : string) (d : jsstring) : M B unit :=
  emit (ToastShown (Toast.make (str t) d destructive)).

Definition toast (t d : string) : M B unit := toast_error t (str d).

Definition console_log (args : list LogArg) : M B unit :=
  emit (Console LevelLog args).

Definition console_error (args : list LogArg) : M B unit :=
  emit (Console LevelError args).

End Monad.

Notation "x <- m ;; k" := (bind m (fun x => k))
  (at level 61, m at next level, right associativity).
Notation "m ;; k" := (bind m (fun _ => k))
  (at level 61, right associativity).

(* ================================================================== *)
(** ** The hook's callbacks *)

Section Callbacks.

Context {B : Type} {E : Env B}.

(** [import.meta.env.VITE_GEMINI_API_KEY], fixed at build time. *)
Variable apiKey : option jsstring.

(** [await call]: the request goes out, the backend moves on, and the
    promise resolves to a value or rejects, which throws at the [await]. *)
Definition await {A} (req : Request) (wrap : A -> Response)
           (call : B -> Reply A * B) : M B A :=
  fun s =>
    let '(rep, b) := call (ext s) in
    let s' := mkStore (hook s) (location s) b in
    match rep with
    | Resolved a => (Normal a, s', [Net req (wrap a)])
    | Rejected e => (Throw e, s', [Net req (Failed e)])
    end.

(** Reading the environment without a request ([crypto], [Date]). *)
Definition observe {A} (f : B -> A * B) : M B A :=
  fun s =>
    let '(a, b) := f (ext s) in
    (Normal a, mkStore (hook s) (location s) b, []).

(** [TypeError] raised by a property read on [null]. *)
Definition TypeError_null (prop : string) : Error :=
  mkError (str "Cannot read properties of null (reading '"
             ++ str prop ++ str "')").

(** *** [saveMessage] (lines 18-28) *)
Definition saveMessage (message : Message) (chatSessionId : jsstring)
  : M B unit :=
  let row := ChatMessage.make_insert chatSessionId (role message)
                                     (content message) in
  try_catch
    (_ <- await (InsertMessage row) Written (insert_message row) ;;
     ret tt)
    (fun error =>
       console_error [LStr (str "Error saving message:"); LErr error]).

(** *** [createChatSession] (lines 30-70) *)
Definition createChatSession (r : Render) (agentId : jsstring)
           (title : jsstring) : M B (option jsstring) :=
  try_catch
    (match r_user r with
     | None =>
         toast "Authentication required"
               "You must be logged in to create a chat session" ;;
         ret None
     | Some u =>
         sessionId <- observe randomUUID ;;
         created <- observe new_Date ;;
         updated <- observe new_Date ;;
         let row := ChatSession.make sessionId agentId (User.id u) title
                                     created updated in
         res <- await (InsertSession row) SessionRow (insert_session row) ;;
         match error res with
         | Some err =>
             console_error [LStr (str "Error creating chat session:"); LErr err] ;;
             throw err
         | None =>
             match data res with
             | Some d => ret (Some (ChatSession.id d))
             | None => throw (TypeError_null "id")
             end
         end
     end)
    (fun error =>
       toast_error "Error creating chat session" (message error) ;;
       ret None).

(** *** [loadSession] (lines 72-137) *)
Definition loadSession_try (r : Render) (sessionId : jsstring) : M B unit :=
  if negb (truthy sessionId) then
    throw (mkError (str "No session ID provided"))
  else
    match r_user r with
    | None => throw (mkError (str "User not authenticated"))
    | Some u =>
        setSessionId (Some sessionId) ;;
        setIsLoading true ;;
        console_log [LStr (str "Loading session:"); LStr sessionId;
                     LStr (str "for user:"); LStr (User.id u)] ;;
        (* Verify session belongs to current user *)
        sres <- await (SelectSession sessionId) SessionRow
                      (select_session sessionId) ;;
        match error sres with
        | Some sessionError =>
            console_error [LStr (str "Error fetching session:");
                           LErr sessionError] ;;
            throw (mkError (str "Failed to fetch session: "
                              ++ message sessionError))
        | None =>
            match data sres with
            | None => throw (mkError (str "Session not found"))
            | Some sessionData =>
                if negb (JS.eqb (ChatSession.user_id sessionData) (User.id u))
                then
                  console_error
                    [LStr (str "Permission denied. Session user:");
                     LStr (ChatSession.user_id sessionData);
                     LStr (str "Current user:"); LStr (User.id u)] ;;
                  throw (mkError (str
                    "You don't have permission to access this chat session"))
                else
                  (* Load messages *)
                  mres <- await (SelectMessages sessionId) MessageRows
                                (select_messages sessionId) ;;
                  match error mres with
                  | Some err =>
                      console_error [LStr (str "Error fetching messages:");
                                     LErr err] ;;
                      throw (mkError (str "Failed to fetch messages: "
                                        ++ message err))
                  | None =>
                      match data mres with
                      | None => throw (TypeError_null "map")
                      | Some rows =>
                          let loadedMessages :=
                            map (fun msg =>
                                   mkMessage (ChatMessage.role msg)
                                             (ChatMessage.content msg))
                                rows in
                          console_log [LStr (str "Loaded messages:");
                                       LNum (List.length loadedMessages)] ;;
                          setMessages (fun _ => loadedMessages)
                      end
                  end
            end
        end
    end.

Definition loadSession_catch (error : Error) : M B unit :=
  console_error [LStr (str "Error in loadSession:"); LErr error] ;;
  toast_error "Error loading chat session" (message error).

Definition loadSession (r : Render) (sessionId : jsstring) : M B unit :=
  finally (try_catch (loadSession_try r sessionId) loadSession_catch)
          (setIsLoading false).

(** *** [getAgentConfig] (lines 139-153) *)
Definition getAgentConfig (agentId : jsstring) : M B (option Agent.t) :=
  try_catch
    (res <- await (SelectAgent agentId) AgentRow (select_agent agentId) ;;
     match error res with
     | Some err => throw err
     | None => ret (data res)
     end)
    (fun error =>
       console_error [LStr (str "Error fetching agent config:"); LErr error] ;;
       ret None).

(** *** [sendMessage] (lines 155-223) *)
Definition noResponse : Error :=
  mkError (str "No response received from Gemini").

Definition sendMessage_try (r : Render) (userMessage : Message) : M B unit :=
  (* Create or use existing chat session *)
  let failed : M B jsstring :=
    throw (mkError (str "Failed to create chat session")) in
  let create : M B jsstring :=
    created <- createChatSession r (r_agentId r) (str "New Chat") ;;
    match created with
    | Some sid => if truthy sid then setSessionId (Some sid) ;; ret sid
                  else failed
    | None => failed
    end in
  currentSessionId <-
    match r_sessionId r with
    | Some sid => if truthy sid then ret sid else create
    | None => create
    end ;;
  (* Save user message *)
  saveMessage userMessage currentSessionId ;;
  (* Get agent configuration *)
  agentConfig <- getAgentConfig (r_agentId r) ;;
  let allMessages := r_messages r ++ [userMessage] in
  console_log [LStr (str "Sending messages to Gemini:"); LJson allMessages] ;;
  res <- await (Invoke (str "gemini-chat")
                       (mkBody allMessages agentConfig apiKey))
               Invoked
               (functions_invoke (str "gemini-chat")
                                 (mkBody allMessages agentConfig apiKey)) ;;
  match error res with
  | Some err => throw (mkError (message err))
  | None =>
      match data res with
      | None => throw noResponse
      | Some d =>
          match generatedText d with
          | None => throw noResponse
          | Some text =>
              if negb (truthy text) then throw noResponse
              else
                (* Process response *)
                let assistantMessage := mkMessage assistant text in
                setMessages (fun prev => prev ++ [assistantMessage]) ;;
                (* Save assistant message *)
                saveMessage assistantMessage currentSessionId
          end
      end
  end.

Definition sendMessage_catch (error : Error) : M B unit :=
  console_error [LStr (str "Error sending message:"); LErr error] ;;
  toast_error "Error" (or_else (Some (message error))
                              (str "Failed to get response")).

Definition sendMessage (r : Render) (content : jsstring) : M B unit :=
  if negb (truthy (trim content)) then ret tt
  else
    match r_user r with
    | None =>
        toast "Authentication required"
              "You must be logged in to send messages"
    | Some _ =>
        let userMessage := mkMessage user content in
        setMessages (fun prev => prev ++ [userMessage]) ;;
        setIsLoading true ;;
        finally (try_catch (sendMessage_try r userMessage) sendMessage_catch)
                (setIsLoading false)
    end.

(** *** [resetChat] (lines 225-228) *)
Definition resetChat : M B unit :=
  setMessages (fun _ => []) ;;
  setSessionId None.

End Callbacks.

(* ================================================================== *)
(** ** The [Chat] page *)

(** [URLSearchParams]: an ordered list of name/value pairs. *)
Module URLSearchParams.

Definition t := list (jsstring * jsstring).

(** [get(name)]: the first value under [name], or [null]. *)
Fixpoint get (name : jsstring) (ps : t) : option jsstring :=
  match ps with
  | [] => None
  | (k, v) :: rest => if JS.eqb k name then Some v else get name rest
  end.

(** [delete(name)]: drops every pair under [name]. *)
Definition delete (name : jsstring) (ps : t) : t :=
  filter (fun p => negb (JS.eqb (fst p) name)) ps.

End URLSearchParams.

(** [/^[0-9a-f]{8}-[0-9a-f]{4}-[0-9a-f]{4}-[0-9a-f]{4}-[0-9a-f]{12}$/i] *)
Definition hexClass : list (N * N) := [(48, 57); (97, 102)]%N.

Definition uuidRegex : list JS.Term :=
  [JS.Class hexClass 8; JS.Literal 45;
   JS.Class hexClass 4; JS.Literal 45;
   JS.Class hexClass 4; JS.Literal 45;
   JS.Class hexClass 4; JS.Literal 45;
   JS.Class hexClass 12].

Definition uuidRegex_test (s : jsstring) : bool := JS.test true uuidRegex s.

Section Page.

Context {B : Type} {E : Env B}.

(** [window.history.replaceState({}, "", `${pathname}?${params}`)] *)
Definition replaceState (params : URLSearchParams.t) : M B unit :=
  fun s =>
    let path := pathname (location s) in
    (Normal tt,
     mkStore (hook s) (mkLocation path params) (ext s),
     [ReplaceState path params]).

(** The second half of the page's first effect (lines 67-94): load the
    session named by the [session] query parameter. *)
Definition sessionParamEffect (r : Render) (searchParams : URLSearchParams.t)
  : M B unit :=
  match URLSearchParams.get (str "session") searchParams with
  | None => ret tt
  | Some sessionParam =>
      if negb (truthy sessionParam) then ret tt
      else if negb (uuidRegex_test sessionParam) then
        console_error [LStr (str "Invalid session ID format:");
                       LStr sessionParam] ;;
        toast "Invalid Session"
              "The chat session ID is not in the correct format. Starting a new chat instead." ;;
        (* Clear the invalid session parameter *)
        replaceState (URLSearchParams.delete (str "session") searchParams)
      else
        console_log [LStr (str "Loading existing session:");
                     LStr sessionParam] ;;
        try_catch (loadSession r sessionParam)
                  (fun error =>
                     console_error [LStr (str "Error loading session:");
                                    LErr error] ;;
                     toast_error "Error loading chat session" (message error))
  end.

End Page.

(** Default welcome message if no messages yet (lines 119-125). *)
Definition welcomeMessage (agent : option Agent.t) : Message :=
  mkMessage assistant
    match agent with
    | Some a =>
        str "Hello! I'm " ++ Agent.name a ++ str ". "
          ++ or_else (Agent.description a) (str "How can I help you today?")
    | None => str "Hello! I'm your AI assistant. How can I help you today?"
    end.

(** [messages.length > 0 ? messages : [welcomeMessage]] (line 127). *)
Definition displayMessages (agent : option Agent.t) (messages : list Message)
  : list Message :=
  if Nat.ltb 0 (List.length messages) then messages
  else [welcomeMessage agent].

(* ================================================================== *)
(** ** A reference backend

    Tables as lists of rows, a clock, a supply of identifiers, the generation
    function as an opaque map from request to reply, and a script of faults
    consumed one per request.  A healthy request behaves as the tables of
    section 6 of the specification do: [chat_sessions.id] is unique, a
    message row references an existing session, [single()] wants exactly one
    row, and [order("created_at", ascending)] sorts. *)

Module Cloud.

Inductive Fault :=
| Healthy
| Fails (e : Error)      (* resolves to [{ data: null, error }] *)
| Rejects (e : Error).   (* the promise rejects *)

Record t := make {
  chat_sessions : list ChatSession.t;
  chat_messages : list ChatMessage.t;
  agents : list Agent.t;
  clock : Time;
  uuids : list jsstring;
  script : list Fault;
  gemini : InvokeBody -> Result Generated
}.

Definition with_script (c : t) (f : list Fault) : t :=
  make (chat_sessions c) (chat_messages c) (agents c) (clock c) (uuids c)
       f (gemini c).

(** One request under the script: the next fault decides whether the
    healthy behaviour [op] runs. *)
Definition request {A} (op : t -> Result A * t) (c : t)
  : Reply (Result A) * t :=
  match script c with
  | [] => let '(r, c') := op c in (Resolved r, c')
  | Healthy :: rest =>
      let '(r, c') := op (with_script c rest) in (Resolved r, c')
  | Fails e :: rest =>
      (Resolved (mkResult None (Some e)), with_script c rest)
  | Rejects e :: rest => (Rejected e, with_script c rest)
  end.

Definition ok {A} (a : A) : Result A := mkResult (Some a) None.
Definition err {A} (m : string) : Result A :=
  mkResult None (Some (mkError (str m))).

(** [.single()] *)
Definition single {A} (rows : list A) : Result A :=
  match rows with
  | [x] => ok x
  | _ => err "JSON object requested, multiple (or no) rows returned"
  end.

(** [.order("created_at", { ascending: true })], by insertion. *)
Fixpoint place (m : ChatMessage.t) (sorted : list ChatMessage.t)
  : list ChatMessage.t :=
  match sorted with
  | [] => [m]
  | x :: rest =>
      if (ChatMessage.created_at m <? ChatMessage.created_at x)%N
      then m :: x :: rest
      else x :: place m rest
  end.

Definition order_by_created_at (rows : list ChatMessage.t)
  : list ChatMessage.t :=
  fold_left (fun acc m => place m acc) rows [].

Definition session_rows (sid : jsstring) (c : t) : list ChatSession.t :=
  filter (fun row => JS.eqb (ChatSession.id row) sid) (chat_sessions c).

Definition message_rows (sid : jsstring) (c : t) : list ChatMessage.t :=
  filter (fun row => JS.eqb (ChatMessage.session_id row) sid)
         (chat_messages c).

Definition agent_rows (aid : jsstring) (c : t) : list Agent.t :=
  filter (fun row => JS.eqb (Agent.id row) aid) (agents c).

Definition do_insert_message (ins : ChatMessage.insert) (c : t)
  : Result unit * t :=
  match session_rows (ChatMessage.i_session_id ins) c with
  | [] => (err "insert or update on table violates foreign key constraint", c)
  | _ :: _ =>
      let row := ChatMessage.make (ChatMessage.i_session_id ins)
                                  (ChatMessage.i_role ins)
                                  (ChatMessage.i_content ins)
                                  (clock c) in
      (mkResult None None,
       make (chat_sessions c) (chat_messages c ++ [row]) (agents c)
            (clock c + 1)%N (uuids c) (script c) (gemini c))
  end.

Definition do_insert_session (row : ChatSession.t) (c : t)
  : Result ChatSession.t * t :=
  match session_rows (ChatSession.id row) c with
  | [] =>
      (ok row,
       make (chat_sessions c ++ [row]) (chat_messages c) (agents c)
            (clock c) (uuids c) (script c) (gemini c))
  | _ :: _ => (err "duplicate key value violates unique constraint", c)
  end.

Definition do_select_session (sid : jsstring) (c : t)
  : Result ChatSession.t * t :=
  (single (session_rows sid c), c).

Definition do_select_messages (sid : jsstring) (c : t)
  : Result (list ChatMessage.t) * t :=
  (ok (order_by_created_at (message_rows sid c)), c).

Definition do_select_agent (aid : jsstring) (c : t) : Result Agent.t * t :=
  (single (agent_rows aid c), c).

Definition do_invoke (fn : jsstring) (body : InvokeBody) (c : t)
  : Result Generated * t :=
  if JS.eqb fn (str "gemini-chat") then (gemini c body, c)
  else (err "Function not found", c).

Definition defaultUUID : jsstring :=
  str "00000000-0000-4000-8000-000000000000".

Definition do_randomUUID (c : t) : jsstring * t :=
  match uuids c with
  | [] => (defaultUUID, c)
  | u :: rest =>
      (u, make (chat_sessions c) (chat_messages c) (agents c) (clock c)
               rest (script c) (gemini c))
  end.

Definition do_new_Date (c : t) : Time * t :=
  (clock c,
   make (chat_sessions c) (chat_messages c) (agents c) (clock c + 1)%N
        (uuids c) (script c) (gemini c)).

#[global] Instance env : Env t := {
  insert_message ins := request (do_insert_message ins);
  insert_session row := request (do_insert_session row);
  select_session sid := request (do_select_session sid);
  select_messages sid := request (do_select_messages sid);
  select_agent aid := request (do_select_agent aid);
  functions_invoke fn body := request (do_invoke fn body);
  randomUUID := do_randomUUID;
  new_Date := do_new_Date
}.

End Cloud.

(* ================================================================== *)
(** ** Vocabulary of the properties *)

(** Blank or whitespace-only input. *)
Definition blank (s : jsstring) : Prop :=
  Forall (fun c => isWhiteSpace c = true) s.

(** The format [xxxxxxxx-xxxx-xxxx-xxxx-xxxxxxxxxxxx] of a session id, as
    the specification writes it: five groups of 8, 4, 4, 4 and 12
    hexadecimal digits (either case) separated by hyphens. *)
Definition isHexDigit (c : N) : bool :=
  (((48 <=? c) && (c <=? 57))
   || ((97 <=? c) && (c <=? 102))
   || ((65 <=? c) && (c <=? 70)))%N.

Definition hexGroup (n : nat) (g : jsstring) : Prop :=
  List.length g = n /\ Forall (fun c => isHexDigit c = true) g.

Definition uuid_format (s : jsstring) : Prop :=
  exists g1 g2 g3 g4 g5,
    s = g1 ++ 45%N :: g2 ++ 45%N :: g3 ++ 45%N :: g4 ++ 45%N :: g5
    /\ hexGroup 8 g1 /\ hexGroup 4 g2 /\ hexGroup 4 g3 /\ hexGroup 4 g4
    /\ hexGroup 12 g5.

(** What an anchored pattern describes: [shaped ts s rest] when [s] is a
    string described by [ts] followed by [rest]. *)
Fixpoint shaped (ignoreCase : bool) (ts : list JS.Term) (s rest : jsstring)
  : Prop :=
  match ts with
  | [] => s = rest
  | JS.Class rs n :: ts' =>
      exists g mid,
        s = g ++ mid /\ List.length g = n
        /\ Forall (fun c => in_class ignoreCase rs c = true) g
        /\ shaped ignoreCase ts' mid rest
  | JS.Literal c :: ts' =>
      exists d mid,
        s = d :: mid
        /\ (if ignoreCase then (canonicalize c =? canonicalize d)%N
            else (c =? d)%N) = true
        /\ shaped ignoreCase ts' mid rest
  end.

(** Kinds of events. *)
Definition is_request (e : Event) : bool :=
  match e with Net _ _ => true | _ => false end.

Definition is_toast (e : Event) : bool :=
  match e with ToastShown _ => true | _ => false end.

Definition is_setter (e : Event) : bool :=
  match e with
  | SetMessages _ | SetIsLoading _ | SetSessionId _ => true
  | _ => false
  end.

Definition is_error_log (e : Event) : bool :=
  match e with Console LevelError _ => true | _ => false end.

(** [bracketed loading evs]: reading [evs] from a moment when the loading
    flag is [loading], every request goes out while the flag is set. *)
Fixpoint bracketed (loading : bool) (evs : list Event) : bool :=
  match evs with
  | [] => true
  | SetIsLoading b :: rest => bracketed b rest
  | Net _ _ :: rest => loading && bracketed loading rest
  | _ :: rest => bracketed loading rest
  end.

(** A reply with which creating the session has failed: the insert was
    rejected or reported an error, or no usable row id came back. *)
Definition creation_failed (resp : Response) : bool :=
  match resp with
  | Failed _ => true
  | SessionRow r =>
      match error r, data r with
      | Some _, _ => true
      | None, None => true
      | None, Some row => negb (truthy (ChatSession.id row))
      end
  | _ => false
  end.

(** A reply with which generation has failed: the call was rejected or
    reported an error, or the reply text is missing or empty. *)
Definition generation_failed (resp : Response) : bool :=
  match resp with
  | Failed _ => true
  | Invoked r =>
      match error r, data r with
      | Some _, _ => true
      | None, None => true
      | None, Some d => negb (truthy_opt (generatedText d))
      end
  | _ => false
  end.

(** The steps of [sendMessage] whose failure aborts the send. *)
Definition send_step_failed (e : Event) : bool :=
  match e with
  | Net (InsertSession _) resp => creation_failed resp
  | Net (Invoke _ _) resp => generation_failed resp
  | _ => false
  end.

(** The steps of [loadSession] whose failure aborts the load, for the
    user [uid]: a failed lookup, a missing session, a session of another
    owner, a failed fetch of the messages. *)
Definition load_step_failed (uid : jsstring) (e : Event) : bool :=
  match e with
  | Net (SelectSession _) (SessionRow r) =>
      match error r, data r with
      | Some _, _ => true
      | None, None => true
      | None, Some row => negb (JS.eqb (ChatSession.user_id row) uid)
      end
  | Net (SelectMessages _) (MessageRows r) =>
      match error r, data r with
      | Some _, _ => true
      | None, None => true
      | None, Some _ => false
      end
  | Net (SelectSession _) (Failed _) => true
  | Net (SelectMessages _) (Failed _) => true
  | _ => false
  end.

(** A chat message write that was rejected. *)
Definition write_rejected (e : Event) : bool :=
  match e with
  | Net (InsertMessage _) (Failed _) => true
  | _ => false
  end.

(** An error caught by a callback and reported: logged on the console
    under [label], and shown as a destructive toast titled [title]. *)
Definition reported (label title : string) (describe : Error -> jsstring)
           (evs : list Event) : Prop :=
  exists e,
    In (Console LevelError [LStr (str label); LErr e]) evs
    /\ In (ToastShown (Toast.make (str title) (describe e) destructive)) evs.

Definition load_reported : list Event -> Prop :=
  reported "Error in loadSession:" "Error loading chat session" message.

Definition send_reported : list Event -> Prop :=
  reported "Error sending message:" "Error"
           (fun e => or_else (Some (message e)) (str "Failed to get response")).

(** What [loadSession] builds from the rows it is given. *)
Definition to_message (row : ChatMessage.t) : Message :=
  mkMessage (ChatMessage.role row) (ChatMessage.content row).

(** Ascending creation time. *)
Definition older_or_same (a b : ChatMessage.t) : Prop :=
  (ChatMessage.created_at a <= ChatMessage.created_at b)%N.

(** The session [sendMessage] writes under in the reference backend: the
    one of the render when there is one, else the next fresh identifier. *)
Definition session_for (r : Render) (c : Cloud.t) : jsstring :=
  match r_sessionId r with
  | Some sid => if truthy sid then sid else fst (Cloud.do_randomUUID c)
  | None => fst (Cloud.do_randomUUID c)
  end.

(** That session exists already, or can be created. *)
Definition session_available (r : Render) (c : Cloud.t) : Prop :=
  if truthy_opt (r_sessionId r)
  then Cloud.session_rows (session_for r c) c <> []
  else truthy (session_for r c) = true
       /\ Cloud.session_rows (session_for r c) c = [].

(* ================================================================== *)
(** ** A small world to run the callbacks in *)

Module Demo.

Definition alice : User.t := User.make (str "alice").

Definition agent1 : Agent.t :=
  Agent.make (str "agent-1") (str "Ada") (Some (str "I review proofs.")).

Definition bobs_id : jsstring := str "11111111-2222-3333-4444-555555555555".
Definition alices_id : jsstring := str "99999999-8888-7777-6666-555555555555".

Definition bobs_session : ChatSession.t :=
  ChatSession.make bobs_id (str "agent-1") (str "bob") (str "New Chat") 1%N 1%N.

Definition alices_session : ChatSession.t :=
  ChatSession.make alices_id (str "agent-1") (str "alice") (str "New Chat") 2%N 2%N.

Definition stored : list ChatMessage.t :=
  [ChatMessage.make alices_id assistant (str "hello alice") 5%N;
   ChatMessage.make bobs_id user (str "secret") 3%N;
   ChatMessage.make alices_id user (str "hello") 4%N].

Definition echo (body : InvokeBody) : Result Generated :=
  mkResult (Some (mkGenerated (Some (str "hello from the agent")))) None.

Definition boom : Error := mkError (str "network down").

Definition cloud (script : list Cloud.Fault) : Cloud.t :=
  Cloud.make [bobs_session; alices_session] stored [agent1] 10%N
             [str "aaaaaaaa-bbbb-4ccc-8ddd-eeeeeeeeeeee"] script echo.

Definition start (script : list Cloud.Fault) : Store Cloud.t :=
  mkStore (mkHook [] false None)
          (mkLocation (str "/chat/agent-1") [])
          (cloud script).

(** The first render: nothing sent yet, no session. *)
Definition render : Render := mkRender (str "agent-1") (Some alice) [] None.

Definition anonymous : Render := mkRender (str "agent-1") None [] None.

Definition key : option jsstring := Some (str "k").

End Demo.

(* ================================================================== *)
(** ** Vocabulary of the further properties *)

(** The requests of a run, in the order they went out. *)
Definition requests (evs : list Event) : list Request :=
  flat_map (fun e => match e with Net req _ => [req] | _ => [] end) evs.

(** The toasts of a run, in the order they were shown. *)
Definition toasts (evs : list Event) : list Toast.t :=
  flat_map (fun e => match e with ToastShown t => [t] | _ => [] end) evs.

(** The requests of a run with the reply each received, in order. *)
Definition exchanges (evs : list Event) : list (Request * Response) :=
  flat_map (fun e => match e with Net req resp => [(req, resp)] | _ => [] end)
           evs.

(** What [getAgentConfig] makes of the reply to its lookup: the [data] of
    a reply that resolved without an error, [null] otherwise. *)
Definition config_of (resp : Response) : option Agent.t :=
  match resp with
  | AgentRow res =>
      match error res with
      | None => data res
      | Some _ => None
      end
  | _ => None
  end.

(** The reply [sendMessage] takes from the generation call: the
    [generatedText] of a reply that resolved without an error, when it is
    there and not empty. *)
Definition reply_of (resp : Response) : option jsstring :=
  match resp with
  | Invoked res =>
      match error res, data res with
      | None, Some d =>
          match generatedText d with
          | Some text => if truthy text then Some text else None
          | None => None
          end
      | _, _ => None
      end
  | _ => None
  end.

(** The session id [sendMessage] takes from the insert of the session:
    the id of the row that came back without an error, when not empty. *)
Definition created_id (resp : Response) : option jsstring :=
  match resp with
  | SessionRow res =>
      match error res, data res with
      | None, Some row =>
          if truthy (ChatSession.id row) then Some (ChatSession.id row)
          else None
      | _, _ => None
      end
  | _ => None
  end.

(** The exchanges of a send under the session [sid], given the replies
    [w1], [found], [generated] and [w2] of the backend: the user's message
    is written, the agent is looked up, the generation function is invoked
    on the messages of the render followed by the new one, with the agent
    configuration the lookup gave, and the reply, when the call gave one,
    is written. *)
Definition send_exchanges (apiKey : option jsstring) (r : Render)
           (content sid : jsstring) (w1 found generated w2 : Response)
  : list (Request * Response) :=
  [(InsertMessage (ChatMessage.make_insert sid user content), w1);
   (SelectAgent (r_agentId r), found);
   (Invoke (str "gemini-chat")
           (mkBody (r_messages r ++ [mkMessage user content])
                   (config_of found) apiKey),
    generated)]
  ++ match reply_of generated with
     | Some text =>
         [(InsertMessage (ChatMessage.make_insert sid assistant text), w2)]
     | None => []
     end.

(** The reply a run of [sendMessage] took from its generation call, if it
    made one. *)
Definition reply_in (evs : list Event) : option jsstring :=
  match flat_map (fun e => match e with
                           | Net (Invoke _ _) resp => [resp]
                           | _ => []
                           end) evs with
  | resp :: _ => reply_of resp
  | [] => None
  end.

(** A lookup of the agent that was rejected or reported an error. *)
Definition agent_fetch_failed (e : Event) : bool :=
  match e with
  | Net (SelectAgent _) (Failed _) => true
  | Net (SelectAgent _) (AgentRow res) =>
      match error res with Some _ => true | None => false end
  | _ => false
  end.

(** A write of a chat message that failed: the insert was rejected, or,
    as the client reports a refusal by the database, it resolved with an
    error. *)
Definition write_failed (e : Event) : bool :=
  match e with
  | Net (InsertMessage _) (Failed _) => true
  | Net (InsertMessage _) (Written res) =>
      match error res with Some _ => true | None => false end
  | _ => false
  end.

(* ================================================================== *)
(** ** The page's own state, and its callbacks

    Beside the hook the [Chat] component keeps the agent it fetched and the
    text of the input field.  Its callbacks run the hook's, so their
    effects are the hook's ([FromHook]) and two of their own. *)

Module Page.
Record t := make {
  agent : option Agent.t;      (* [useState<any>(null)] *)
  input : jsstring             (* [useState("")] *)
}.
End Page.

Inductive PageEvent :=
| FromHook (e : Event)
| AgentLogged (label : jsstring) (row : Agent.t)   (* [console.log(label, row)] *)
| DefaultPrevented.                                (* [e.preventDefault()] *)

Definition PM (B A : Type) : Type :=
  Page.t -> Store B -> Completion A * Page.t * Store B * list PageEvent.

Definition page_completion {B A}
           (x : Completion A * Page.t * Store B * list PageEvent) :=
  fst (fst (fst x)).
Definition page_after {B A}
           (x : Completion A * Page.t * Store B * list PageEvent) :=
  snd (fst (fst x)).
Definition page_store_after {B A}
           (x : Completion A * Page.t * Store B * list PageEvent) :=
  snd (fst x).
Definition page_emitted {B A}
           (x : Completion A * Page.t * Store B * list PageEvent) :=
  snd x.

(** The effects of the hook's kinds among those of a page callback. *)
Definition hook_events (evs : list PageEvent) : list Event :=
  flat_map (fun e => match e with FromHook h => [h] | _ => [] end) evs.

Section PageMonad.

Context {B : Type}.

Definition pret {A} (a : A) : PM B A := fun p s => (Normal a, p, s, []).

Definition pbind {A C} (m : PM B A) (k : A -> PM B C) : PM B C :=
  fun p s =>
    match m p s with
    | (Normal a, p1, s1, ev1) =>
        let '(c, p2, s2, ev2) := k a p1 s1 in (c, p2, s2, ev1 ++ ev2)
    | (Throw e, p1, s1, ev1) => (Throw e, p1, s1, ev1)
    end.

Definition pthrow {A} (e : Error) : PM B A := fun p s => (Throw e, p, s, []).

Definition ptry_catch {A} (body : PM B A) (handler : Error -> PM B A)
  : PM B A :=
  fun p s =>
    match body p s with
    | (Normal a, p1, s1, ev1) => (Normal a, p1, s1, ev1)
    | (Throw e, p1, s1, ev1) =>
        let '(c, p2, s2, ev2) := handler e p1 s1 in (c, p2, s2, ev1 ++ ev2)
    end.

(** A callback of the hook's monad, run by the page. *)
Definition lift {A} (m : M B A) : PM B A :=
  fun p s =>
    let '(c, s1, ev) := m s in (c, p, s1, map FromHook ev).

(** An async function called without [await]: its promise is dropped, so
    a rejection would not reach the caller.  The call is run to its end
    here, before what follows it in the caller. *)
Definition detach (m : M B unit) : PM B unit :=
  fun p s =>
    let '(_, s1, ev) := m s in (Normal tt, p, s1, map FromHook ev).

Definition setAgent (row : Agent.t) : PM B unit :=
  fun p s => (Normal tt, Page.make (Some row) (Page.input p), s, []).

Definition setInput (v : jsstring) : PM B unit :=
  fun p s => (Normal tt, Page.make (Page.agent p) v, s, []).

Definition page_emit (e : PageEvent) : PM B unit :=
  fun p s => (Normal tt, p, s, [e]).

End PageMonad.

Notation "x <~ m ;; k" := (pbind m (fun x => k))
  (at level 61, m at next level, right associativity).
Notation "m ~; k" := (pbind m (fun _ => k))
  (at level 61, right associativity).

Section PageCallbacks.

Context {B : Type} {E : Env B}.
Variable apiKey : option jsstring.

(** [fetchAgent] (lines 30-63); [id] is the route parameter. *)
Definition fetchAgent (id : option jsstring) : PM B unit :=
  match id with
  | None => lift (console_error [LStr (str "No agent ID provided")])
  | Some id =>
      if negb (truthy id)
      then lift (console_error [LStr (str "No agent ID provided")])
      else
        ptry_catch
          (lift (console_log [LStr (str "Fetching agent:"); LStr id]) ~;
           res <~ lift (await (SelectAgent id) AgentRow (select_agent id)) ;;
           match error res with
           | Some err =>
               lift (console_error [LStr (str "Error fetching agent:");
                                    LErr err]) ~;
               pthrow err
           | None =>
               match data res with
               | None => pthrow (mkError (str "Agent not found"))
               | Some row =>
                   page_emit (AgentLogged (str "Agent found:") row) ~;
                   setAgent row
               end
           end)
          (fun error =>
             lift (console_error [LStr (str "Error in fetchAgent:");
                                  LErr error] ;;
                   toast_error "Error fetching agent" (message error)))
  end.

(** [handleSendMessage] (lines 107-113), created by a render whose input
    field holds [input] and whose hook reports [isLoading]. *)
Definition handleSendMessage (r : Render) (input : jsstring)
           (isLoading : bool) : PM B unit :=
  page_emit DefaultPrevented ~;
  if negb (truthy (trim input)) || isLoading then pret tt
  else
    detach (sendMessage apiKey r input) ~;
    setInput [].

End PageCallbacks.

(* ================================================================== *)
(** ** Memory and store in agreement (reference backend) *)

(** What one send shows, and what it stores under [sid] from time [t] on:
    the user's message, then the reply when one came. *)
Definition spoken_turn (content : jsstring) (reply : option jsstring)
  : list Message :=
  mkMessage user content
    :: match reply with
       | Some text => [mkMessage assistant text]
       | None => []
       end.

Definition stored_turn (sid content : jsstring) (reply : option jsstring)
           (t : Time) : list ChatMessage.t :=
  ChatMessage.make sid user content t
    :: match reply with
       | Some text => [ChatMessage.make sid assistant text (t + 1)%N]
       | None => []
       end.

(** The hook mirrors the store: its session is a stored session of the
    user, its message list is what loading that session would give, and
    the stored messages of the session are older than the clock. *)
Definition mirrors (u : User.t) (sid : jsstring) (s : Store Cloud.t) : Prop :=
  sessionId (hook s) = Some sid
  /\ sid <> []
  /\ (exists row, Cloud.session_rows sid (ext s) = [row]
                  /\ ChatSession.user_id row = User.id u)
  /\ messages (hook s)
     = map to_message
           (Cloud.order_by_created_at (Cloud.message_rows sid (ext s)))
  /\ Forall (fun m => (ChatMessage.created_at m < Cloud.clock (ext s))%N)
            (Cloud.message_rows sid (ext s)).

(** A position of the session id pattern: hyphens at 8, 13, 18 and 23,
    hexadecimal digits elsewhere. *)
Definition uuid_position_ok (i : nat) (c : N) : bool :=
  match i with
  | 8 | 13 | 18 | 23 => (c =? 45)%N
  | _ => isHexDigit c
  end.

(* ================================================================== *)
(** ** Strings: equality, trimming, the session id pattern *)

Lemma eqb_eq (a b : jsstring) : JS.eqb a b = true <-> a = b.
Proof.
  revert b; induction a as [|x a IH]; intros [|y b]; simpl;
    try (split; [discriminate | discriminate]); try tauto.
  rewrite andb_true_iff, N.eqb_eq, IH.
  split; [intros [-> ->]; reflexivity | intros H; inversion H; auto].
Qed.

Lemma eqb_refl (a : jsstring) : JS.eqb a a = true.
Proof. apply eqb_eq; reflexivity. Qed.

Lemma truthy_true (s : jsstring) : truthy s = true <-> s <> [].
Proof. destruct s; simpl; split; congruence. Qed.

Lemma trimStart_nil (s : jsstring) : trimStart s = [] <-> blank s.
Proof.
  unfold blank. induction s as [|c s IH]; simpl.
  - split; [constructor | reflexivity].
  - destruct (isWhiteSpace c) eqn:Hc.
    + rewrite IH. split; [constructor; assumption | inversion 1; assumption].
    + split; [discriminate | inversion 1; congruence].
Qed.

Lemma trimStart_head (s : jsstring) (c : N) (t : jsstring) :
  trimStart s = c :: t -> isWhiteSpace c = false.
Proof.
  induction s as [|d s IH]; simpl; [discriminate|].
  destruct (isWhiteSpace d) eqn:Hd; [exact IH|].
  intros H; inversion H; subst; assumption.
Qed.

Lemma blank_rev (s : jsstring) : blank (rev s) <-> blank s.
Proof.
  unfold blank. rewrite !Forall_forall.
  split; intros H c Hc; apply H.
  - apply in_rev. rewrite rev_involutive. assumption.
  - apply in_rev. assumption.
Qed.

(** [content.trim()] is the empty string exactly on blank input. *)
Lemma trim_nil (s : jsstring) : trim s = [] <-> blank s.
Proof.
  unfold trim, trimEnd.
  split.
  - intros H.
    assert (Hr : trimStart (rev (trimStart s)) = []).
    { destruct (trimStart (rev (trimStart s))); [reflexivity|].
      simpl in H. apply app_eq_nil in H. destruct H; discriminate. }
    apply trimStart_nil in Hr. rewrite blank_rev in Hr.
    destruct (trimStart s) as [|c t] eqn:Hs; [apply trimStart_nil; assumption|].
    apply trimStart_head in Hs. unfold blank in Hr.
    inversion Hr as [|? ? Hc _]. simpl in Hc. congruence.
  - intros H. apply trimStart_nil in H. rewrite H. reflexivity.
Qed.

Lemma trim_guard (s : jsstring) : negb (truthy (trim s)) = true <-> blank s.
Proof.
  rewrite <- trim_nil. destruct (trim s); simpl; split; congruence.
Qed.

Lemma not_blank_guard (content : jsstring) :
  ~ blank content -> negb (truthy (trim content)) = false.
Proof.
  intros Hnb. destruct (negb (truthy (trim content))) eqn:Hg; [|reflexivity].
  apply trim_guard in Hg. contradiction.
Qed.

Lemma small_code_unit (c : N) :
  (c < 128)%N -> exists n, n < 128 /\ c = N.of_nat n.
Proof.
  intros H. exists (N.to_nat c). split; lia.
Qed.

(** Under the [i] flag the class [[0-9a-f]] accepts the hexadecimal digits
    of either case and nothing else. *)
Lemma in_class_hex (c : N) : in_class true hexClass c = isHexDigit c.
Proof.
  destruct (N.ltb c 128) eqn:Hc.
  - apply N.ltb_lt, small_code_unit in Hc. destruct Hc as (n & Hn & ->).
    do 128 (destruct n as [|n]; [vm_compute; reflexivity|]). lia.
  - apply N.ltb_ge in Hc.
    assert (Hcan : canonicalize c = c).
    { unfold canonicalize.
      replace (c <=? 122)%N with false by (symmetry; apply N.leb_gt; lia).
      rewrite andb_false_r. reflexivity. }
    unfold in_class, isHexDigit.
    change (existsb _ hexClass)
      with (existsb (fun a => (canonicalize a =? canonicalize c)%N)
                    (members (48, 57)%N)
            || (existsb (fun a => (canonicalize a =? canonicalize c)%N)
                        (members (97, 102)%N) || false)).
    rewrite Hcan.
    replace (c <=? 57)%N with false by (symmetry; apply N.leb_gt; lia).
    replace (c <=? 102)%N with false by (symmetry; apply N.leb_gt; lia).
    replace (c <=? 70)%N with false by (symmetry; apply N.leb_gt; lia).
    rewrite !andb_false_r.
    assert (Hno : forall l, Forall (fun a => (canonicalize a < 128)%N) l ->
                       existsb (fun a => (canonicalize a =? c)%N) l = false).
    { induction 1 as [|a l Ha _ IH]; simpl; [reflexivity|].
      rewrite IH, orb_false_r. apply N.eqb_neq. lia. }
    rewrite !Hno; [reflexivity | |];
      repeat (constructor; [vm_compute; reflexivity|]); constructor.
Qed.

Lemma match_class_ext (p q : N -> bool) (n : nat) (s : jsstring) :
  (forall c, p c = q c) -> match_class p n s = match_class q n s.
Proof.
  intros H. revert s; induction n as [|n IH]; intros [|c s]; simpl; auto.
  rewrite H, IH. reflexivity.
Qed.

Lemma match_class_sound (p : N -> bool) (n : nat) (s rest : jsstring) :
  match_class p n s = Some rest ->
  exists g, s = g ++ rest /\ List.length g = n
            /\ Forall (fun c => p c = true) g.
Proof.
  revert s; induction n as [|n IH]; intros s H; simpl in H.
  - inversion H; subst. exists []. repeat split; constructor.
  - destruct s as [|c s]; [discriminate|].
    destruct (p c) eqn:Hc; [|discriminate].
    destruct (IH _ H) as (g & -> & <- & Hg).
    exists (c :: g). repeat split. constructor; assumption.
Qed.

Lemma match_class_complete (p : N -> bool) (g rest : jsstring) :
  Forall (fun c => p c = true) g ->
  match_class p (List.length g) (g ++ rest) = Some rest.
Proof.
  induction 1 as [|c g Hc _ IH]; simpl; [reflexivity|].
  rewrite Hc. exact IH.
Qed.

Lemma hyphen_only (d : N) :
  (canonicalize 45 =? canonicalize d)%N = true <-> d = 45%N.
Proof.
  rewrite N.eqb_eq. unfold canonicalize. simpl ((97 <=? 45)%N && _).
  cbv iota.
  destruct ((97 <=? d)%N && (d <=? 122)%N) eqn:Hd.
  - apply andb_true_iff in Hd. destruct Hd as [H1 H2].
    apply N.leb_le in H1, H2. split; lia.
  - split; congruence.
Qed.

(** The matcher accepts exactly the strings the pattern describes. *)
Lemma match_terms_shaped (i : bool) (ts : list JS.Term) :
  forall s rest, match_terms i ts s = Some rest <-> shaped i ts s rest.
Proof.
  induction ts as [|t ts IH]; intros s rest; simpl.
  - split; [intros H; inversion H; reflexivity | intros ->; reflexivity].
  - destruct t as [rs n|c].
    + split.
      * destruct (match_class (in_class i rs) n s) as [mid|] eqn:Hm;
          [|discriminate].
        intros H. apply match_class_sound in Hm.
        destruct Hm as (g & -> & Hlen & Hg).
        exists g, mid. repeat split; try assumption. apply IH; assumption.
      * intros (g & mid & -> & <- & Hg & Hrest).
        rewrite match_class_complete by assumption. apply IH; assumption.
    + destruct s as [|d mid].
      * split; [discriminate | intros (d & mid & H & _); discriminate].
      * split.
        -- destruct (if i then _ else _) eqn:Hd; [|discriminate].
           intros H. exists d, mid. repeat split; try assumption.
           apply IH; assumption.
        -- intros (d' & mid' & Heq & Hd & Hrest). inversion Heq; subst.
           rewrite Hd. apply IH; assumption.
Qed.

Lemma hex_group_class (n : nat) (g : jsstring) :
  (List.length g = n /\ Forall (fun c => in_class true hexClass c = true) g)
  <-> hexGroup n g.
Proof.
  unfold hexGroup. split; intros [Hl Hg]; split; try assumption;
    eapply Forall_impl; try exact Hg; intros c Hc; cbv beta in *;
    [rewrite <- in_class_hex | rewrite in_class_hex]; assumption.
Qed.

(** [uuidRegex.test] decides the format of the specification. *)
Lemma uuidRegex_test_spec (s : jsstring) :
  uuidRegex_test s = true <-> uuid_format s.
Proof.
  unfold uuidRegex_test, JS.test.
  transitivity (match_terms true uuidRegex s = Some []).
  { destruct (match_terms true uuidRegex s) as [[|c r]|];
      split; intros H; try reflexivity; try discriminate H. }
  rewrite match_terms_shaped. unfold uuidRegex, uuid_format. cbn [shaped].
  split.
  - intros (g1 & m1 & -> & L1 & F1 & d1 & n1 & -> & D1 &
            g2 & m2 & -> & L2 & F2 & d2 & n2 & -> & D2 &
            g3 & m3 & -> & L3 & F3 & d3 & n3 & -> & D3 &
            g4 & m4 & -> & L4 & F4 & d4 & n4 & -> & D4 &
            g5 & m5 & -> & L5 & F5 & ->).
    apply hyphen_only in D1, D2, D3, D4. subst.
    exists g1, g2, g3, g4, g5. rewrite app_nil_r.
    split; [reflexivity|].
    do 4 (split; [apply hex_group_class; auto|]).
    apply hex_group_class; auto.
  - intros (g1 & g2 & g3 & g4 & g5 & -> & H1 & H2 & H3 & H4 & H5).
    apply hex_group_class in H1, H2, H3, H4, H5.
    destruct H1 as [L1 F1], H2 as [L2 F2], H3 as [L3 F3], H4 as [L4 F4],
             H5 as [L5 F5].
    exists g1, (45%N :: g2 ++ 45%N :: g3 ++ 45%N :: g4 ++ 45%N :: g5).
    repeat split; try assumption.
    exists 45%N, (g2 ++ 45%N :: g3 ++ 45%N :: g4 ++ 45%N :: g5).
    repeat split.
    exists g2, (45%N :: g3 ++ 45%N :: g4 ++ 45%N :: g5).
    repeat split; try assumption.
    exists 45%N, (g3 ++ 45%N :: g4 ++ 45%N :: g5).
    repeat split.
    exists g3, (45%N :: g4 ++ 45%N :: g5).
    repeat split; try assumption.
    exists 45%N, (g4 ++ 45%N :: g5).
    repeat split.
    exists g4, (45%N :: g5).
    repeat split; try assumption.
    exists 45%N, g5.
    repeat split.
    exists g5, []. rewrite app_nil_r.
    repeat split; assumption.
Qed.

(* ================================================================== *)
(** ** Running callbacks symbolically *)

Ltac unfold_callbacks :=
  cbv beta iota zeta delta
    [loadSession loadSession_try loadSession_catch
     sendMessage sendMessage_try sendMessage_catch
     saveMessage getAgentConfig createChatSession resetChat
     sessionParamEffect replaceState
     finally try_catch bind ret throw emit await observe
     setMessages setIsLoading setSessionId
     toast toast_error console_log console_error
     completion store_after emitted] in *.

Ltac reduce_run :=
  cbn beta iota zeta delta
    [fst snd hook location ext messages isLoading sessionId
     pathname search app andb orb negb existsb bracketed
     is_request is_toast is_setter is_error_log write_rejected
     send_step_failed load_step_failed creation_failed generation_failed
     data error generatedText truthy truthy_opt
     message] in *.

(** Replies are records: opening them lets their fields compute. *)
Ltac open_replies :=
  repeat match goal with
         | a : Result _ |- _ => destruct a
         | g : Generated |- _ => destruct g
         end.

(** The test a boolean expression starts with. *)
Ltac first_test x :=
  lazymatch x with
  | negb ?y => first_test y
  | orb ?a _ => first_test a
  | andb ?a _ => first_test a
  | _ => constr:(x)
  end.

(** Case analysis on every reply and test the run depends on. *)
Ltac branch_run :=
  repeat (open_replies; reduce_run;
    match goal with
    | |- context [match ?x with _ => _ end] =>
        lazymatch x with
        | context [match _ with _ => _ end] => fail
        | _ => let y := first_test x in destruct y eqn:?
        end
    | |- context [if ?x then _ else _] =>
        lazymatch x with
        | context [match _ with _ => _ end] => fail
        | _ => let y := first_test x in destruct y eqn:?
        end
    end);
  open_replies; reduce_run.

(** Case analysis on a run named by an equation: the run is analysed once,
    and what is to be shown is read off its result. *)
Ltac settle_run :=
  intros;
  repeat match goal with
         | H : (_, _) = (_, _) |- _ => inversion H; clear H
         end;
  subst.

Ltac cases_of_run :=
  unfold_callbacks; branch_run; settle_run; reduce_run.

Ltac name_run x :=
  let c := fresh "c" in
  let s' := fresh "s'" in
  let evs := fresh "evs" in
  let Hrun := fresh "Hrun" in
  destruct x as [[c s'] evs] eqn:Hrun; subst x; revert Hrun.

(** The same reading for the exchanges of a run and what it shows. *)
Ltac reduce_exchanges :=
  cbn beta iota zeta delta
    [exchanges requests toasts flat_map app existsb orb andb negb
     config_of reply_of created_id reply_in send_exchanges spoken_turn
     agent_fetch_failed write_failed generation_failed creation_failed
     send_step_failed is_toast is_error_log
     data error generatedText ChatSession.id truthy truthy_opt] in *.

(** What the tests passed on the way say of the replies. *)
Ltac use_tests :=
  repeat match goal with
         | H : truthy _ = _ |- _ => rewrite H in *; clear H
         end.

(** The replies of a run are the ones the exchanges of a send name. *)
Ltac tie_exchanges :=
  eexists _, _, _, _; unfold send_exchanges; cbn [app];
  split;
  [ do 3 (apply f_equal2; [reflexivity|]);
    reduce_exchanges; use_tests; reduce_exchanges; reflexivity
  | reduce_exchanges; use_tests; reduce_exchanges;
    rewrite <- ?app_assoc; reflexivity ].

(* ================================================================== *)
(** ** The guards of [sendMessage], [resetChat], the welcome message *)

Section Guards.

Context {B : Type} {E : Env B}.
Variable apiKey : option jsstring.

(** C1. On blank or whitespace-only input, and whenever no user is
    authenticated, [sendMessage] completes without touching the store (the
    message list, the session id, the loading flag, the backend), without
    calling a state setter and without sending a request. *)
Theorem sendMessage_noop_on_blank_or_anonymous :
  forall (r : Render) (content : jsstring) (s : Store B),
    blank content \/ r_user r = None ->
    let x := sendMessage apiKey r content s in
    completion x = Normal tt
    /\ store_after x = s
    /\ existsb is_request (emitted x) = false
    /\ existsb is_setter (emitted x) = false.
Proof.
  intros r content s H. unfold sendMessage.
  destruct (negb (truthy (trim content))) eqn:Hblank.
  - cbn. auto.
  - destruct H as [H | H].
    + apply trim_guard in H. congruence.
    + rewrite H. cbn. auto.
Qed.

(** C6. From any state, [resetChat] leaves an empty message list and no
    session id; it sends no request, so nothing persisted is deleted, and
    the backend is as it was. *)
Theorem resetChat_clears_memory_only :
  forall (s : Store B),
    let x := @resetChat B s in
    completion x = Normal tt
    /\ messages (hook (store_after x)) = []
    /\ sessionId (hook (store_after x)) = None
    /\ ext (store_after x) = ext s
    /\ emitted x = [SetMessages []; SetSessionId None].
Proof.
  intros s. cbn. auto.
Qed.

End Guards.

(** C10. With an empty message list the page shows exactly one message, the
    assistant's welcome, which carries the agent's name and description once
    the agent is loaded (a stock question stands in for a missing or empty
    description, a stock greeting for a missing agent); a non-empty list is
    shown as it is. *)
Theorem displayMessages_welcome :
  forall (agent : option Agent.t) (m : Message) (ms : list Message)
         (aid aname : jsstring) (c : N) (adesc : jsstring),
    displayMessages agent [] = [welcomeMessage agent]
    /\ role (welcomeMessage agent) = assistant
    /\ displayMessages agent (m :: ms) = m :: ms
    /\ content (welcomeMessage (Some (Agent.make aid aname (Some (c :: adesc)))))
       = str "Hello! I'm " ++ aname ++ str ". " ++ c :: adesc
    /\ content (welcomeMessage (Some (Agent.make aid aname None)))
       = str "Hello! I'm " ++ aname ++ str ". "
           ++ str "How can I help you today?"
    /\ content (welcomeMessage (Some (Agent.make aid aname (Some []))))
       = str "Hello! I'm " ++ aname ++ str ". "
           ++ str "How can I help you today?"
    /\ content (welcomeMessage None)
       = str "Hello! I'm your AI assistant. How can I help you today?".
Proof.
  intros. repeat split.
Qed.

(* ================================================================== *)
(** ** The [session] query parameter *)

Lemma get_delete (name : jsstring) (ps : URLSearchParams.t) :
  URLSearchParams.get name (URLSearchParams.delete name ps) = None.
Proof.
  induction ps as [|[k v] ps IH]; simpl; [reflexivity|].
  destruct (JS.eqb k name) eqn:Hk; simpl; [exact IH|].
  rewrite Hk. exact IH.
Qed.

Section SessionParam.

Context {B : Type} {E : Env B}.

(** C7, amended.  A non-empty [session] parameter that is not in the format
    [xxxxxxxx-xxxx-xxxx-xxxx-xxxxxxxxxxxx] never reaches [loadSession]: the
    effect logs it, shows the "Invalid Session" notification and replaces
    the URL by one without the parameter, and does nothing else: the state
    of the hook and the backend are untouched and no request goes out. *)
Theorem invalid_session_param_is_stripped :
  forall (r : Render) (searchParams : URLSearchParams.t) (p : jsstring)
         (s : Store B),
    URLSearchParams.get (str "session") searchParams = Some p ->
    p <> [] ->
    ~ uuid_format p ->
    let x := sessionParamEffect r searchParams s in
    completion x = Normal tt
    /\ hook (store_after x) = hook s
    /\ ext (store_after x) = ext s
    /\ emitted x =
         [Console LevelError
                  [LStr (str "Invalid session ID format:"); LStr p];
          ToastShown
            (Toast.make
               (str "Invalid Session")
               (str "The chat session ID is not in the correct format. Starting a new chat instead.")
               destructive);
          ReplaceState (pathname (location s))
                       (URLSearchParams.delete (str "session") searchParams)]
    /\ URLSearchParams.get (str "session")
                           (search (location (store_after x))) = None.
Proof.
  intros r searchParams p s Hget Hp Hfmt.
  assert (Htest : uuidRegex_test p = false).
  { destruct (uuidRegex_test p) eqn:Ht; [|reflexivity].
    apply uuidRegex_test_spec in Ht. contradiction. }
  unfold sessionParamEffect. rewrite Hget.
  destruct p as [|c p]; [contradiction|].
  cbn [truthy negb]. rewrite Htest.
  unfold_callbacks. reduce_run.
  repeat split. apply get_delete.
Qed.

End SessionParam.

(* ================================================================== *)
(** ** Every outcome of [loadSession] and [sendMessage] *)

Ltac report_error :=
  eexists; split; simpl In; [eauto 25 | eauto 25].

Section Outcomes.

Context {B : Type} {E : Env B}.
Variable apiKey : option jsstring.


(** [loadSession] for an authenticated user: it always completes, requests
    go out under the loading flag, the flag is down at the end; a failed
    step leaves the message list alone and is reported, and otherwise the
    list is replaced by the rows received. *)
Lemma loadSession_outcomes (r : Render) (u : User.t) (sid : jsstring)
      (s : Store B) :
  r_user r = Some u ->
  let x := loadSession r sid s in
  completion x = Normal tt
  /\ bracketed false (emitted x) = true
  /\ isLoading (hook (store_after x)) = false
  /\ (if existsb (load_step_failed (User.id u)) (emitted x)
      then messages (hook (store_after x)) = messages (hook s)
           /\ load_reported (emitted x)
      else if truthy sid
           then existsb is_toast (emitted x) = false
                /\ exists rows,
                    In (Net (SelectMessages sid)
                            (MessageRows (mkResult (Some rows) None)))
                       (emitted x)
                    /\ messages (hook (store_after x)) = map to_message rows
           else messages (hook (store_after x)) = messages (hook s)
                /\ load_reported (emitted x)).
Proof.
  intros Hu. unfold loadSession, loadSession_try. rewrite Hu.
  unfold_callbacks. branch_run.
  all: repeat split; try reflexivity; try discriminate.
  all: try (unfold load_reported, reported; report_error).
  all: try (eexists; split; [simpl In; eauto 25 | reflexivity]).
Qed.

(** Without a user [loadSession] reports that and changes nothing but the
    loading flag. *)
Lemma loadSession_anonymous (r : Render) (sid : jsstring) (s : Store B) :
  r_user r = None ->
  let x := loadSession r sid s in
  completion x = Normal tt
  /\ bracketed false (emitted x) = true
  /\ isLoading (hook (store_after x)) = false
  /\ messages (hook (store_after x)) = messages (hook s)
  /\ sessionId (hook (store_after x)) = sessionId (hook s)
  /\ existsb is_request (emitted x) = false
  /\ load_reported (emitted x).
Proof.
  intros Hu. unfold loadSession, loadSession_try. rewrite Hu.
  unfold_callbacks. branch_run.
  all: repeat split; unfold load_reported, reported; report_error.
Qed.

(** [sendMessage] past its guards: it always completes, requests go out
    under the loading flag, the flag is down at the end; when creating the
    session or generating the reply fails the list ends with the user's
    message and the failure is reported, and otherwise the list ends with
    the user's message and the reply, both written under one session id,
    and no toast is shown. *)
Lemma sendMessage_outcomes (r : Render) (u : User.t) (content : jsstring)
      (s : Store B) :
  ~ blank content ->
  r_user r = Some u ->
  let x := sendMessage apiKey r content s in
  completion x = Normal tt
  /\ bracketed false (emitted x) = true
  /\ isLoading (hook (store_after x)) = false
  /\ (if existsb send_step_failed (emitted x)
      then messages (hook (store_after x))
           = messages (hook s) ++ [mkMessage user content]
           /\ send_reported (emitted x)
      else existsb is_toast (emitted x) = false
           /\ exists sid text w1 w2,
               truthy sid = true /\ truthy text = true
               /\ messages (hook (store_after x))
                  = messages (hook s)
                      ++ [mkMessage user content; mkMessage assistant text]
               /\ In (Net (InsertMessage
                              (ChatMessage.make_insert sid user content)) w1)
                     (emitted x)
               /\ In (Net (InsertMessage
                              (ChatMessage.make_insert sid assistant text)) w2)
                     (emitted x)).
Proof.
  intros Hblank Hu.
  assert (Hguard : negb (truthy (trim content)) = false).
  { destruct (negb (truthy (trim content))) eqn:Hg; [|reflexivity].
    apply trim_guard in Hg. contradiction. }
  unfold sendMessage. rewrite Hguard, Hu.
  unfold_callbacks. branch_run.
  all: repeat split; try reflexivity; try discriminate.
  all: try (unfold send_reported, reported; report_error).
  all: do 4 eexists; rewrite <- app_assoc;
    (split; [|split; [|split; [reflexivity|split; simpl In; eauto 25]]]);
    eassumption.
Qed.

(** A failed lookup of the agent is logged and nothing more: the
    generation function is called with no agent configuration, and what is
    shown, list and toast, depends on its reply alone. *)
Lemma sendMessage_survives_agent_failure (r : Render) (u : User.t)
      (content : jsstring) (s : Store B) :
  ~ blank content ->
  r_user r = Some u ->
  let x := sendMessage apiKey r content s in
  existsb agent_fetch_failed (emitted x) = true ->
  (exists e,
      In (Console LevelError
                  [LStr (str "Error fetching agent config:"); LErr e])
         (emitted x))
  /\ exists generated,
      In (Net (Invoke (str "gemini-chat")
                      (mkBody (r_messages r ++ [mkMessage user content])
                              None apiKey))
              generated)
         (emitted x)
      /\ messages (hook (store_after x))
         = messages (hook s) ++ spoken_turn content (reply_of generated)
      /\ existsb is_toast (emitted x) = generation_failed generated.
Proof.
  intros Hnb Hu x. apply not_blank_guard in Hnb.
  name_run x. unfold sendMessage. rewrite Hnb, Hu.
  cases_of_run; reduce_exchanges; try discriminate.
  all: use_tests; reduce_exchanges.
  all: (split; [eexists; simpl In; eauto 25|]).
  all: eexists; (split; [simpl In; eauto 25|]).
  all: reduce_exchanges; use_tests; reduce_exchanges.
  all: rewrite <- ?app_assoc; split; reflexivity.
Qed.



End Outcomes.

Section Controller.

Context {B : Type} {E : Env B}.
Variable apiKey : option jsstring.

(** Whatever reply the lookup gets, an authenticated [loadSession] of a
    non-empty id has already made that id the current session. *)
Lemma loadSession_sets_session_first (r : Render) (u : User.t)
      (sid : jsstring) (s : Store B) :
  r_user r = Some u ->
  truthy sid = true ->
  sessionId (hook (store_after (loadSession r sid s))) = Some sid.
Proof.
  intros Hu Hsid. unfold loadSession, loadSession_try. rewrite Hu, Hsid.
  unfold_callbacks. branch_run; reflexivity.
Qed.

(** C9. [isLoading] brackets the requests of [loadSession] and of
    [sendMessage]: in every run, whatever the backend replies, each request
    goes out after [setIsLoading(true)] and before the flag is lowered, the
    callback completes, and the flag is down at the end ([sendMessage]
    past its guards, which return before touching the flag). *)
Theorem isLoading_brackets_requests :
  forall (r : Render) (s : Store B),
    (forall sid,
        let x := loadSession r sid s in
        completion x = Normal tt
        /\ bracketed false (emitted x) = true
        /\ isLoading (hook (store_after x)) = false)
    /\ (forall content,
           let x := sendMessage apiKey r content s in
           completion x = Normal tt
           /\ bracketed false (emitted x) = true
           /\ (~ blank content -> r_user r <> None ->
               isLoading (hook (store_after x)) = false)).
Proof.
  intros r s. split.
  - intros sid. destruct (r_user r) as [u|] eqn:Hu.
    + destruct (@loadSession_outcomes _ _ r u sid s Hu) as (H1 & H2 & H3 & _). auto.
    + destruct (@loadSession_anonymous _ _ r sid s Hu) as (H1 & H2 & H3 & _). auto.
  - intros content.
    destruct (negb (truthy (trim content))) eqn:Hguard.
    + unfold sendMessage. rewrite Hguard. cbn.
      repeat split. intros Hnb. apply trim_guard in Hguard. contradiction.
    + destruct (r_user r) as [u|] eqn:Hu.
      * assert (Hnb : ~ blank content).
        { intros Hb. apply trim_guard in Hb. congruence. }
        destruct (@sendMessage_outcomes _ _ apiKey r u content s Hnb Hu)
          as (H1 & H2 & H3 & _).
        auto.
      * unfold sendMessage. rewrite Hguard, Hu. cbn.
        repeat split. intros _ Habs. contradiction.
Qed.

(** C4, amended.  When creating the session fails, when the generation call
    is rejected or reports an error, or when its reply is missing or empty,
    [sendMessage] still completes: the failure is logged and shown as a
    toast, the message list is the previous one followed by the user's
    message (kept, and no assistant message after it), and the loading flag
    is down.  A failed lookup of the agent does not fail the send: it is
    logged by [getAgentConfig], the generation function is called with a
    [null] agent configuration, and the list and the toast depend on the
    reply of that call alone. *)
Theorem sendMessage_failure_keeps_user_message :
  forall (r : Render) (u : User.t) (content : jsstring) (s : Store B),
    ~ blank content ->
    r_user r = Some u ->
    let x := sendMessage apiKey r content s in
    (existsb send_step_failed (emitted x) = true ->
     completion x = Normal tt
     /\ messages (hook (store_after x))
        = messages (hook s) ++ [mkMessage user content]
     /\ send_reported (emitted x)
     /\ isLoading (hook (store_after x)) = false)
    /\ (existsb agent_fetch_failed (emitted x) = true ->
        (exists e,
            In (Console LevelError
                        [LStr (str "Error fetching agent config:"); LErr e])
               (emitted x))
        /\ exists generated,
            In (Net (Invoke (str "gemini-chat")
                            (mkBody (r_messages r ++ [mkMessage user content])
                                    None apiKey))
                    generated)
               (emitted x)
            /\ messages (hook (store_after x))
               = messages (hook s) ++ spoken_turn content (reply_of generated)
            /\ existsb is_toast (emitted x) = generation_failed generated).
Proof.
  intros r u content s Hnb Hu x. split.
  - intros Hfail.
    destruct (@sendMessage_outcomes _ _ apiKey r u content s Hnb Hu)
      as (H1 & _ & H3 & H4).
    fold x in H1, H3, H4. rewrite Hfail in H4. destruct H4 as [Hm Hrep].
    auto.
  - exact (@sendMessage_survives_agent_failure _ _ apiKey r u content s Hnb Hu).
Qed.


End Controller.

(* ================================================================== *)
(** ** The reference backend: ordering and lookups *)

Lemma place_perm (m : ChatMessage.t) (l : list ChatMessage.t) :
  Permutation (Cloud.place m l) (m :: l).
Proof.
  induction l as [|x l IH]; simpl; [reflexivity|].
  destruct (ChatMessage.created_at m <? ChatMessage.created_at x)%N;
    [reflexivity|].
  transitivity (x :: m :: l); [apply perm_skip; exact IH | apply perm_swap].
Qed.

Lemma place_sorted (m : ChatMessage.t) (l : list ChatMessage.t) :
  StronglySorted older_or_same l ->
  StronglySorted older_or_same (Cloud.place m l).
Proof.
  induction 1 as [|x l Hl IH Hx]; simpl.
  - constructor; constructor.
  - destruct (ChatMessage.created_at m <? ChatMessage.created_at x)%N eqn:Hm.
    + apply N.ltb_lt in Hm.
      constructor; [constructor; assumption|].
      constructor; [unfold older_or_same; lia|].
      eapply Forall_impl; [|exact Hx].
      unfold older_or_same; intros y Hy; lia.
    + apply N.ltb_ge in Hm.
      constructor; [exact IH|].
      apply Forall_forall. intros y Hy.
      apply (Permutation_in _ (place_perm m l)) in Hy.
      destruct Hy as [<- | Hy]; [exact Hm|].
      rewrite Forall_forall in Hx. apply Hx; assumption.
Qed.

Lemma fold_place (rows acc : list ChatMessage.t) :
  StronglySorted older_or_same acc ->
  Permutation (fold_left (fun a m => Cloud.place m a) rows acc) (acc ++ rows)
  /\ StronglySorted older_or_same
                    (fold_left (fun a m => Cloud.place m a) rows acc).
Proof.
  revert acc; induction rows as [|m rows IH]; intros acc Hacc; simpl.
  - rewrite app_nil_r. split; [reflexivity | assumption].
  - destruct (IH (Cloud.place m acc) (place_sorted m Hacc)) as [Hp Hs].
    split; [|exact Hs].
    rewrite Hp. rewrite (place_perm m acc).
    apply Permutation_middle.
Qed.

(** [order("created_at")] returns the same rows, oldest first. *)
Lemma order_by_created_at_sorts (rows : list ChatMessage.t) :
  Permutation (Cloud.order_by_created_at rows) rows
  /\ StronglySorted older_or_same (Cloud.order_by_created_at rows).
Proof.
  apply (fold_place rows (acc := [])). constructor.
Qed.

(** Without scripted faults a request is served by the tables. *)
Lemma request_served {A} (op : Cloud.t -> Result A * Cloud.t) (c : Cloud.t) :
  Cloud.script c = [] ->
  Cloud.request op c = (Resolved (fst (op c)), snd (op c)).
Proof.
  intros H. unfold Cloud.request. rewrite H. destruct (op c); reflexivity.
Qed.

(** C8. For a session owned by the caller and a backend that serves the two
    requests, [loadSession] completes without a toast and replaces the
    message list, whatever it held, by the messages stored for that
    session: every row of [chat_messages] with that session id, once each,
    oldest first.  The backend is left as it was. *)
Theorem loadSession_replaces_messages_in_order :
  forall (r : Render) (u : User.t) (sid : jsstring) (row : ChatSession.t)
         (s : Store Cloud.t),
    r_user r = Some u ->
    sid <> [] ->
    Cloud.script (ext s) = [] ->
    Cloud.session_rows sid (ext s) = [row] ->
    ChatSession.user_id row = User.id u ->
    let x := loadSession r sid s in
    let rows := Cloud.order_by_created_at (Cloud.message_rows sid (ext s)) in
    completion x = Normal tt
    /\ messages (hook (store_after x)) = map to_message rows
    /\ Permutation rows (Cloud.message_rows sid (ext s))
    /\ StronglySorted older_or_same rows
    /\ existsb is_toast (emitted x) = false
    /\ ext (store_after x) = ext s.
Proof.
  intros r u sid row s Hu Hsid Hscript Hrow Howner x rows.
  destruct (order_by_created_at_sorts (Cloud.message_rows sid (ext s)))
    as [Hperm Hsorted].
  fold rows in Hperm, Hsorted.
  apply truthy_true in Hsid.
  subst x. unfold loadSession, loadSession_try. rewrite Hu, Hsid.
  destruct s as [h loc c]. cbn [ext] in *.
  unfold_callbacks. reduce_run.
  cbn [select_session select_messages Cloud.env].
  rewrite !(@request_served _ _ _ Hscript).
  unfold Cloud.do_select_session, Cloud.do_select_messages.
  reduce_run. rewrite Hrow.
  unfold Cloud.single, Cloud.ok. reduce_run.
  rewrite Howner, eqb_refl. reduce_run.
  rewrite !(@request_served _ _ _ Hscript). reduce_run.
  repeat split; try assumption; reflexivity.
Qed.


Ltac cloud_unfold :=
  unfold Cloud.do_insert_message, Cloud.do_insert_session,
    Cloud.do_select_session, Cloud.do_select_messages,
    Cloud.do_select_agent, Cloud.do_invoke, Cloud.do_randomUUID,
    Cloud.do_new_Date, Cloud.session_rows, Cloud.message_rows,
    Cloud.agent_rows, Cloud.ok, Cloud.err in *.

Ltac cloud_cbn :=
  cbn beta iota zeta delta
    [insert_message insert_session select_session select_messages
     select_agent functions_invoke randomUUID new_Date Cloud.env
     Cloud.request Cloud.with_script Cloud.single
     Cloud.script Cloud.chat_sessions Cloud.chat_messages Cloud.agents
     Cloud.clock Cloud.uuids Cloud.gemini
     ChatMessage.i_session_id ChatMessage.i_role ChatMessage.i_content
     ChatSession.id role content
     fst snd hook location ext messages isLoading sessionId
     app negb existsb is_toast data error generatedText
     truthy truthy_opt message] in *.

Ltac cloud_run := repeat first [progress cloud_cbn | progress cloud_unfold].

(** The rows of a session id that was free, once its row is appended. *)
Ltac created_session Hnone Hfresh :=
  repeat progress (rewrite ?Hnone, ?Hfresh, ?filter_app;
                   cbn [filter app ChatSession.id]; rewrite ?eqb_refl;
                   cloud_run).

(** The agent lookup (none, one or several rows) and the generated reply. *)
Ltac reply_arrives Hgen Htext :=
  match goal with
  | |- context [filter ?f ?ags] =>
      lazymatch type of ags with
      | list Agent.t => destruct (filter f ags) as [|? [|? ?]]
      end
  end;
  cloud_run; rewrite ?eqb_refl; cloud_run; rewrite Hgen;
  cloud_run; rewrite Htext; cloud_run.


(** C3. For non-blank input from an authenticated user, when the session
    exists or can be created, the backend serves every request and the
    generation function answers with a non-empty text: the message list
    afterwards is the previous list, then the user's message with the text
    typed, then the assistant's message with the text generated, and
    [chat_messages] has gained exactly these two rows, in this order, both
    under the same session id, which names a stored session and is the
    hook's session id. *)
Theorem sendMessage_success_appends_and_persists :
  forall (apiKey : option jsstring) (r : Render) (u : User.t)
         (content text : jsstring) (s : Store Cloud.t),
    ~ blank content ->
    r_user r = Some u ->
    Cloud.script (ext s) = [] ->
    session_available r (ext s) ->
    Cloud.gemini (ext s)
                 (mkBody (r_messages r ++ [mkMessage user content])
                         (data (Cloud.single
                                  (Cloud.agent_rows (r_agentId r) (ext s))))
                         apiKey)
    = mkResult (Some (mkGenerated (Some text))) None ->
    text <> [] ->
    let x := sendMessage apiKey r content s in
    let sid := session_for r (ext s) in
    completion x = Normal tt
    /\ messages (hook (store_after x))
       = messages (hook s)
           ++ [mkMessage user content; mkMessage assistant text]
    /\ (exists t1 t2,
           Cloud.chat_messages (ext (store_after x))
           = Cloud.chat_messages (ext s)
               ++ [ChatMessage.make sid user content t1;
                   ChatMessage.make sid assistant text t2]
           /\ (t1 < t2)%N)
    /\ Cloud.session_rows sid (ext (store_after x)) <> []
    /\ (r_sessionId r = sessionId (hook s) ->
        sessionId (hook (store_after x)) = Some sid)
    /\ existsb is_toast (emitted x) = false.
Proof.
  intros apiKey r u content text s Hnb Hu Hscript Hsess Hgen Htext x sid.
  assert (Hguard : negb (truthy (trim content)) = false).
  { destruct (negb (truthy (trim content))) eqn:Hg; [|reflexivity].
    apply trim_guard in Hg. contradiction. }
  apply truthy_true in Htext.
  subst x sid. unfold sendMessage. rewrite Hguard, Hu.
  unfold session_available, session_for in *.
  destruct s as [h loc c].
  destruct c as [ses msgs ags clk us scr gem].
  cbn [ext Cloud.script Cloud.gemini] in *. subst scr.
  unfold_callbacks. rewrite ?Hu.
  destruct (r_sessionId r) as [sid|] eqn:Hsid;
    [destruct (truthy sid) eqn:Htr|].
  - cbn [truthy_opt] in Hsess. rewrite Htr in Hsess. cloud_run.
    destruct (filter _ ses) as [|row rows] eqn:Hrows; [contradiction|].
    cloud_run.
    reply_arrives Hgen Htext; rewrite Hrows; cloud_run.
    all: split; [reflexivity|].
    all: split; [rewrite <- app_assoc; reflexivity|].
    all: split; [eexists _, _; split;
                 [rewrite <- app_assoc; reflexivity | lia]|].
    all: split; [rewrite Hrows; discriminate|].
    all: split; [congruence | reflexivity].
  - cbn [truthy_opt] in Hsess. rewrite Htr in Hsess.
    destruct Hsess as [Hfresh Hnone].
    destruct us as [|fresh us']; cloud_run; created_session Hnone Hfresh.
    all: reply_arrives Hgen Htext; created_session Hnone Hfresh.
    all: split; [reflexivity|].
    all: split; [rewrite <- app_assoc; reflexivity|].
    all: split; [eexists _, _; split;
                 [rewrite <- app_assoc; reflexivity | lia]|].
    all: split; [created_session Hnone Hfresh; discriminate|].
    all: split; reflexivity.
  - cbn [truthy_opt] in Hsess.
    destruct Hsess as [Hfresh Hnone].
    destruct us as [|fresh us']; cloud_run; created_session Hnone Hfresh.
    all: reply_arrives Hgen Htext; created_session Hnone Hfresh.
    all: split; [reflexivity|].
    all: split; [rewrite <- app_assoc; reflexivity|].
    all: split; [eexists _, _; split;
                 [rewrite <- app_assoc; reflexivity | lia]|].
    all: split; [created_session Hnone Hfresh; discriminate|].
    all: split; reflexivity.
Qed.

(* ================================================================== *)
(** ** Runs in the demo world *)

(** Closed goals about a run are settled by running it. *)
Ltac conjuncts := cbv zeta; repeat match goal with |- _ /\ _ => split end.
Ltac by_running := vm_compute; reflexivity.

(** C2: the code is at fault.  Alice asks for Bob's session in the demo
    world.  The load is refused and reported and her message list is left
    alone, as the claim says, but the session id does not keep its value:
    it was [null] and is now the id of Bob's session, set before the owner
    was checked. *)
Theorem loadSession_denied_keeps_foreign_session_id :
  let s := Demo.start [] in
  let x := loadSession Demo.render Demo.bobs_id s in
  Cloud.session_rows Demo.bobs_id (ext s) = [Demo.bobs_session]
  /\ ChatSession.user_id Demo.bobs_session <> User.id Demo.alice
  /\ completion x = Normal tt
  /\ In (ToastShown
           (Toast.make
              (str "Error loading chat session")
              (str "You don't have permission to access this chat session")
              destructive))
        (emitted x)
  /\ messages (hook (store_after x)) = messages (hook s)
  /\ sessionId (hook s) = None
  /\ sessionId (hook (store_after x)) = Some Demo.bobs_id.
Proof.
  conjuncts; try by_running.
  - vm_compute. discriminate.
  - vm_compute. auto 20.
Qed.

(** What the next send then does: rendered with the session id the refused
    load left behind, [sendMessage] writes Alice's message and the reply
    into Bob's session. *)
Lemma send_after_denied_load_writes_foreign_session :
  let s1 := store_after (loadSession Demo.render Demo.bobs_id (Demo.start [])) in
  let r1 := mkRender (str "agent-1") (Some Demo.alice)
                     (messages (hook s1)) (sessionId (hook s1)) in
  let x := sendMessage Demo.key r1 (str "hi") s1 in
  map ChatMessage.session_id
      (skipn (List.length Demo.stored)
             (Cloud.chat_messages (ext (store_after x))))
  = [Demo.bobs_id; Demo.bobs_id].
Proof. vm_compute. reflexivity. Qed.

(** C4 as stated fails: the agent lookup reports an error, and the send
    goes on without a notification and appends the assistant's reply. *)
Lemma agent_fetch_failure_does_not_fail_the_send :
  let s := Demo.start [Cloud.Healthy; Cloud.Healthy; Cloud.Fails Demo.boom] in
  let x := sendMessage Demo.key Demo.render (str "hi") s in
  In (Net (SelectAgent (str "agent-1"))
          (AgentRow (mkResult None (Some Demo.boom))))
     (emitted x)
  /\ existsb is_toast (emitted x) = false
  /\ messages (hook (store_after x))
     = [mkMessage user (str "hi");
        mkMessage assistant (str "hello from the agent")].
Proof.
  conjuncts; try by_running.
  vm_compute. auto 20.
Qed.


(** C7 as stated fails on the empty value ([?session=]): it is not in the
    format, and the effect neither notifies nor strips it. *)
Lemma empty_session_param_is_ignored :
  let params := [(str "session", [])] in
  let s := mkStore (mkHook [] false None)
                   (mkLocation (str "/chat/agent-1") params)
                   (Demo.cloud []) in
  let x := sessionParamEffect Demo.render params s in
  URLSearchParams.get (str "session") params = Some []
  /\ ~ uuid_format []
  /\ emitted x = []
  /\ URLSearchParams.get (str "session") (search (location (store_after x)))
     = Some [].
Proof.
  conjuncts; try by_running.
  intros H. apply uuidRegex_test_spec in H. discriminate H.
Qed.

(** *** The theorems at work *)

Lemma hi_is_not_blank : ~ blank (str "hi").
Proof. intros H. apply trim_nil in H. vm_compute in H. discriminate H. Qed.

(** An anonymous visitor types "hi": nothing happens to the store. *)
Lemma sendMessage_noop_witness :
  let x := sendMessage Demo.key Demo.anonymous (str "hi") (Demo.start []) in
  completion x = Normal tt
  /\ store_after x = Demo.start []
  /\ existsb is_request (emitted x) = false
  /\ existsb is_setter (emitted x) = false.
Proof.
  apply (@sendMessage_noop_on_blank_or_anonymous
           Cloud.t Cloud.env Demo.key Demo.anonymous (str "hi") (Demo.start [])).
  right. reflexivity.
Defined.

(** Alice's first "hi" in the demo world: a session is created and both
    messages are stored under it. *)
Lemma sendMessage_success_witness :
  let s := Demo.start [] in
  let x := sendMessage Demo.key Demo.render (str "hi") s in
  let sid := session_for Demo.render (ext s) in
  completion x = Normal tt
  /\ messages (hook (store_after x))
     = messages (hook s)
         ++ [mkMessage user (str "hi");
             mkMessage assistant (str "hello from the agent")]
  /\ (exists t1 t2,
         Cloud.chat_messages (ext (store_after x))
         = Cloud.chat_messages (ext s)
             ++ [ChatMessage.make sid user (str "hi") t1;
                 ChatMessage.make sid assistant (str "hello from the agent") t2]
         /\ (t1 < t2)%N)
  /\ Cloud.session_rows sid (ext (store_after x)) <> []
  /\ (r_sessionId Demo.render = sessionId (hook s) ->
      sessionId (hook (store_after x)) = Some sid)
  /\ existsb is_toast (emitted x) = false.
Proof.
  apply (@sendMessage_success_appends_and_persists
           Demo.key Demo.render Demo.alice (str "hi")
           (str "hello from the agent") (Demo.start [])).
  - exact hi_is_not_blank.
  - reflexivity.
  - reflexivity.
  - vm_compute. split; reflexivity.
  - by_running.
  - discriminate.
Defined.

(** The generation call reports an error: the user's message stays.  The
    agent lookup reports an error: the generation function is called with
    no agent configuration. *)
Lemma sendMessage_failure_witness :
  (let s := Demo.start [Cloud.Healthy; Cloud.Healthy; Cloud.Healthy;
                        Cloud.Fails Demo.boom] in
   let x := sendMessage Demo.key Demo.render (str "hi") s in
   completion x = Normal tt
   /\ messages (hook (store_after x))
      = messages (hook s) ++ [mkMessage user (str "hi")]
   /\ send_reported (emitted x)
   /\ isLoading (hook (store_after x)) = false)
  /\ (let s := Demo.start [Cloud.Healthy; Cloud.Healthy;
                           Cloud.Fails Demo.boom] in
      let x := sendMessage Demo.key Demo.render (str "hi") s in
      exists generated,
        In (Net (Invoke (str "gemini-chat")
                        (mkBody [mkMessage user (str "hi")] None Demo.key))
                generated)
           (emitted x)
        /\ existsb is_toast (emitted x) = generation_failed generated).
Proof.
  split; cbv zeta.
  - destruct (@sendMessage_failure_keeps_user_message
                Cloud.t Cloud.env Demo.key Demo.render Demo.alice (str "hi")
                (Demo.start [Cloud.Healthy; Cloud.Healthy; Cloud.Healthy;
                             Cloud.Fails Demo.boom])
                hi_is_not_blank eq_refl)
      as (Hfailed & _).
    apply Hfailed. by_running.
  - destruct (@sendMessage_failure_keeps_user_message
                Cloud.t Cloud.env Demo.key Demo.render Demo.alice (str "hi")
                (Demo.start [Cloud.Healthy; Cloud.Healthy;
                             Cloud.Fails Demo.boom])
                hi_is_not_blank eq_refl)
      as (_ & Hagent).
    destruct Hagent as (_ & generated & Hin & _ & Htoast); [by_running|].
    exists generated. split; assumption.
Defined.


(** [?tab=1&session=not-a-uuid]: the parameter is stripped. *)
Lemma invalid_session_param_witness :
  let params := [(str "tab", str "1"); (str "session", str "not-a-uuid")] in
  let x := sessionParamEffect Demo.render params (Demo.start []) in
  hook (store_after x) = hook (Demo.start [])
  /\ URLSearchParams.get (str "session") (search (location (store_after x)))
     = None.
Proof.
  destruct (@invalid_session_param_is_stripped
              Cloud.t Cloud.env Demo.render
              [(str "tab", str "1"); (str "session", str "not-a-uuid")]
              (str "not-a-uuid") (Demo.start []))
    as (_ & Hhook & _ & _ & Hurl).
  - reflexivity.
  - discriminate.
  - intros H. apply uuidRegex_test_spec in H. vm_compute in H. discriminate H.
  - split; assumption.
Defined.

(** Alice loads her own session: two messages, oldest first. *)
Lemma loadSession_replaces_witness :
  let s := Demo.start [] in
  let x := loadSession Demo.render Demo.alices_id s in
  messages (hook (store_after x))
  = [mkMessage user (str "hello"); mkMessage assistant (str "hello alice")].
Proof.
  destruct (@loadSession_replaces_messages_in_order
              Demo.render Demo.alice Demo.alices_id Demo.alices_session
              (Demo.start []))
    as (_ & Hmsgs & _).
  - reflexivity.
  - discriminate.
  - reflexivity.
  - by_running.
  - by_running.
  - vm_compute in Hmsgs. exact Hmsgs.
Defined.

(** The loading flag is down after a send whose session insert was
    rejected. *)
Lemma isLoading_brackets_witness :
  isLoading (hook (store_after
                     (sendMessage Demo.key Demo.render (str "hi")
                                  (Demo.start [Cloud.Rejects Demo.boom]))))
  = false.
Proof.
  destruct (@isLoading_brackets_requests
              Cloud.t Cloud.env Demo.key Demo.render
              (Demo.start [Cloud.Rejects Demo.boom]))
    as (_ & Hsend).
  destruct (Hsend (str "hi")) as (_ & _ & Hdown).
  apply Hdown; [exact hi_is_not_blank | discriminate].
Defined.

(* ================================================================== *)
(** ** Further properties of the hook *)

Section Helpers.

Context {B : Type} {E : Env B}.
Variable apiKey : option jsstring.

(** X1. [createChatSession] never throws and never touches the hook's
    state.  Without a user it sends nothing; with one it sends a single
    insert of a row carrying the fresh identifier, the agent, the caller's
    id and the title.  It returns the id of the row that came back, without
    a toast, or [null] after exactly one toast. *)
Theorem createChatSession_outcomes :
  forall (r : Render) (agentId title : jsstring) (s : Store B),
    let x := createChatSession r agentId title s in
    hook (store_after x) = hook s
    /\ location (store_after x) = location s
    /\ existsb is_setter (emitted x) = false
    /\ match completion x with
       | Throw _ => False
       | Normal None => List.length (toasts (emitted x)) = 1
       | Normal (Some sid) =>
           toasts (emitted x) = []
           /\ exists sent row,
               emitted x
               = [Net (InsertSession sent)
                      (SessionRow (mkResult (Some row) None))]
               /\ ChatSession.id row = sid
       end
    /\ match r_user r with
       | None => requests (emitted x) = []
       | Some u =>
           exists created updated,
             requests (emitted x)
             = [InsertSession
                  (ChatSession.make (fst (randomUUID (ext s))) agentId
                                    (User.id u) title created updated)]
       end.
Proof.
  intros r agentId title s x. name_run x.
  cases_of_run.
  all: cbn [toasts requests flat_map app List.length].
  all: repeat match goal with |- _ /\ _ => split end; try reflexivity.
  all: try (eexists _, _; split; reflexivity).
  all: try (eexists _, _; reflexivity).
Qed.

(** X2. [getAgentConfig] sends one lookup and always completes, without a
    toast and without touching the hook's state: its value is the [data] of
    a reply that resolved without an error, and [null] after logging the
    error of any other reply. *)
Theorem getAgentConfig_outcomes :
  forall (agentId : jsstring) (s : Store B),
    let x := getAgentConfig agentId s in
    hook (store_after x) = hook s
    /\ location (store_after x) = location s
    /\ requests (emitted x) = [SelectAgent agentId]
    /\ existsb is_toast (emitted x) = false
    /\ existsb is_setter (emitted x) = false
    /\ match fst (select_agent agentId (ext s)) with
       | Resolved res =>
           match error res with
           | None => completion x = Normal (data res)
                     /\ existsb is_error_log (emitted x) = false
           | Some _ => completion x = Normal None
                       /\ existsb is_error_log (emitted x) = true
           end
       | Rejected _ => completion x = Normal None
                       /\ existsb is_error_log (emitted x) = true
       end.
Proof.
  intros agentId s x. name_run x.
  cases_of_run.
  all: cbn [toasts requests flat_map app].
  all: repeat match goal with |- _ /\ _ => split end; reflexivity.
Qed.

(** X3. [saveMessage] does not look at the result of the write: when the
    insert resolves, even with an error in its [error] field, nothing is
    logged and nothing is shown; the request is the only effect. *)
Theorem saveMessage_ignores_reported_error :
  forall (m : Message) (sid : jsstring) (s : Store B)
         (res : Result unit) (e : Error) (b : B),
    insert_message (ChatMessage.make_insert sid (role m) (content m)) (ext s)
    = (Resolved res, b) ->
    error res = Some e ->
    let x := saveMessage m sid s in
    completion x = Normal tt
    /\ hook (store_after x) = hook s
    /\ ext (store_after x) = b
    /\ emitted x
       = [Net (InsertMessage (ChatMessage.make_insert sid (role m) (content m)))
              (Written res)].
Proof.
  intros m sid s res e b Hreply _ x. subst x.
  unfold_callbacks. rewrite Hreply. reduce_run. repeat split.
Qed.

(** X4. A send from a render that has a session creates none and leaves
    the session id alone.  Its exchanges are, in this order: the write of
    the user's message under that session, the agent lookup, the call of
    [gemini-chat] on the messages of the render followed by the new one,
    with the api key and the agent configuration that the lookup returned
    ([null] when it failed or found none), and, exactly when that call
    resolved without an error and with a non-empty text, the write of that
    text under the same session.  The list afterwards is the previous one
    followed by the user's message and, in that case, that text. *)
Theorem sendMessage_with_session_requests :
  forall (r : Render) (u : User.t) (content sid : jsstring) (s : Store B),
    ~ blank content ->
    r_user r = Some u ->
    r_sessionId r = Some sid ->
    sid <> [] ->
    let x := sendMessage apiKey r content s in
    sessionId (hook (store_after x)) = sessionId (hook s)
    /\ exists w1 found generated w2,
        exchanges (emitted x)
        = send_exchanges apiKey r content sid w1 found generated w2
        /\ messages (hook (store_after x))
           = messages (hook s) ++ spoken_turn content (reply_of generated).
Proof.
  intros r u content sid s Hnb Hu Hsid Htr x.
  apply not_blank_guard in Hnb. apply truthy_true in Htr.
  name_run x. unfold sendMessage. rewrite Hnb, Hu.
  unfold sendMessage_try. rewrite Hsid, Htr.
  cases_of_run.
  all: split; [reflexivity|].
  all: reduce_exchanges.
  all: tie_exchanges.
  Unshelve. all: exact (Failed (mkError [])).
Qed.

(** X5. A send from a render without a session first inserts a session
    row for the caller and the agent, titled "New Chat".  What follows is
    decided by the reply to that insert.  When it is rejected, reports an
    error, or returns no row or a row without an id, nothing else is sent
    (no message is written, the generation function is not called), the
    session id keeps its value and the user's message stays in the list.
    Otherwise the id of the row that came back becomes the session id and
    the send goes on under it, with the exchanges of a send that has a
    session. *)
Theorem sendMessage_without_session_requests :
  forall (r : Render) (u : User.t) (content : jsstring) (s : Store B),
    ~ blank content ->
    r_user r = Some u ->
    truthy_opt (r_sessionId r) = false ->
    let x := sendMessage apiKey r content s in
    exists created updated inserted rest,
      exchanges (emitted x)
      = (InsertSession
           (ChatSession.make (fst (randomUUID (ext s))) (r_agentId r)
                             (User.id u) (str "New Chat") created updated),
         inserted) :: rest
      /\ match created_id inserted with
         | None =>
             rest = []
             /\ sessionId (hook (store_after x)) = sessionId (hook s)
             /\ messages (hook (store_after x))
                = messages (hook s) ++ [mkMessage user content]
         | Some sid =>
             sessionId (hook (store_after x)) = Some sid
             /\ exists w1 found generated w2,
                 rest = send_exchanges apiKey r content sid
                                       w1 found generated w2
                 /\ messages (hook (store_after x))
                    = messages (hook s)
                        ++ spoken_turn content (reply_of generated)
         end.
Proof.
  intros r u content s Hnb Hu Hnone x.
  apply not_blank_guard in Hnb.
  name_run x. unfold sendMessage. rewrite Hnb, Hu.
  unfold sendMessage_try, createChatSession. rewrite Hu.
  destruct (r_sessionId r) as [sid|]; cbn [truthy_opt] in Hnone;
    rewrite ?Hnone.
  all: cases_of_run.
  all: reduce_exchanges.
  all: eexists _, _, _, _; (split; [reflexivity|]).
  all: reduce_exchanges; use_tests; reduce_exchanges.
  all: try (repeat split; reflexivity).
  all: split; [reflexivity|].
  all: tie_exchanges.
  Unshelve. all: exact (Failed (mkError [])).
Qed.

(** X6. [loadSession] sends nothing without a user or without an id.
    Otherwise the id asked for is the session id afterwards in every
    outcome, the session is looked up first, and its messages are requested
    only after the lookup returned a row owned by the caller; in every
    other case the message list is left as it was. *)
Theorem loadSession_requests :
  forall (r : Render) (sid : jsstring) (s : Store B),
    let x := loadSession r sid s in
    match r_user r with
    | None =>
        requests (emitted x) = []
        /\ sessionId (hook (store_after x)) = sessionId (hook s)
        /\ messages (hook (store_after x)) = messages (hook s)
    | Some u =>
        if truthy sid then
          sessionId (hook (store_after x)) = Some sid
          /\ ((requests (emitted x) = [SelectSession sid]
               /\ messages (hook (store_after x)) = messages (hook s))
              \/ (requests (emitted x) = [SelectSession sid; SelectMessages sid]
                  /\ exists row,
                      In (Net (SelectSession sid)
                              (SessionRow (mkResult (Some row) None)))
                         (emitted x)
                      /\ ChatSession.user_id row = User.id u))
        else
          requests (emitted x) = []
          /\ sessionId (hook (store_after x)) = sessionId (hook s)
          /\ messages (hook (store_after x)) = messages (hook s)
    end.
Proof.
  intros r sid s x. name_run x.
  unfold loadSession, loadSession_try.
  destruct (r_user r) as [u|]; destruct (truthy sid) eqn:Htr; cbn [negb].
  all: cases_of_run; cbn [requests flat_map app].
  all: try (repeat split; reflexivity).
  all: split; [reflexivity|].
  all: try (left; split; reflexivity).
  all: right; split; [reflexivity|].
  all: eexists; split; [simpl In; eauto 10|].
  all: match goal with
       | H : eqb _ _ = true |- _ => apply eqb_eq in H; exact H
       end.
Qed.

End Helpers.

(* ================================================================== *)
(** ** Further properties of the page *)

Ltac unfold_page :=
  cbv beta iota zeta delta
    [fetchAgent handleSendMessage
     pret pbind pthrow ptry_catch lift detach setAgent setInput page_emit
     page_completion page_after page_store_after page_emitted] in *.

Ltac reduce_page :=
  cbn beta iota zeta delta
    [fst snd map app flat_map hook_events requests toasts
     Page.agent Page.input] in *.

Ltac branch_page :=
  repeat (open_replies; reduce_run; reduce_page;
    match goal with
    | |- context [match ?x with _ => _ end] =>
        lazymatch x with
        | context [match _ with _ => _ end] => fail
        | _ => let y := first_test x in destruct y eqn:?
        end
    | |- context [if ?x then _ else _] =>
        lazymatch x with
        | context [match _ with _ => _ end] => fail
        | _ => let y := first_test x in destruct y eqn:?
        end
    end);
  open_replies; reduce_run; reduce_page.

Lemma get_delete_other (name k : jsstring) (ps : URLSearchParams.t) :
  k <> name ->
  URLSearchParams.get k (URLSearchParams.delete name ps)
  = URLSearchParams.get k ps.
Proof.
  intros Hk. induction ps as [|[k' v] ps IH]; simpl; [reflexivity|].
  destruct (JS.eqb k' name) eqn:Hname; simpl.
  - apply eqb_eq in Hname. subst k'.
    destruct (JS.eqb name k) eqn:Hnk; [|exact IH].
    apply eqb_eq in Hnk. congruence.
  - destruct (JS.eqb k' k); [reflexivity | exact IH].
Qed.

Lemma delete_drops_all (name v : jsstring) (ps : URLSearchParams.t) :
  ~ In (name, v) (URLSearchParams.delete name ps).
Proof.
  unfold URLSearchParams.delete. intros H. apply filter_In in H.
  destruct H as [_ H]. cbn [fst] in H. rewrite eqb_refl in H. discriminate.
Qed.

Section PageFacts.

Context {B : Type} {E : Env B}.
Variable apiKey : option jsstring.

Lemma loadSession_completes (r : Render) (sid : jsstring) (s : Store B) :
  completion (loadSession r sid s) = Normal tt
  /\ location (store_after (loadSession r sid s)) = location s.
Proof.
  set (x := loadSession r sid s). name_run x.
  cases_of_run. all: split; reflexivity.
Qed.

(** X7. A [session] parameter in the format is handed to [loadSession]
    and the effect adds nothing but a log line: the store and the events
    are those of the load, the [catch] of the effect never runs (no second
    toast), and the URL is not rewritten. *)
Theorem valid_session_param_is_loaded :
  forall (r : Render) (searchParams : URLSearchParams.t) (p : jsstring)
         (s : Store B),
    URLSearchParams.get (str "session") searchParams = Some p ->
    uuid_format p ->
    let x := sessionParamEffect r searchParams s in
    completion x = Normal tt
    /\ store_after x = store_after (loadSession r p s)
    /\ emitted x
       = Console LevelLog [LStr (str "Loading existing session:"); LStr p]
           :: emitted (loadSession r p s)
    /\ location (store_after x) = location s.
Proof.
  intros r searchParams p s Hget Hfmt x. subst x.
  apply uuidRegex_test_spec in Hfmt.
  assert (Hp : truthy p = true).
  { destruct p; [vm_compute in Hfmt; discriminate | reflexivity]. }
  destruct (loadSession_completes r p s) as [Hdone Hloc].
  unfold sessionParamEffect. rewrite Hget, Hp, Hfmt. cbn [negb].
  unfold bind, try_catch, console_log, emit, completion, store_after, emitted
    in *.
  destruct (loadSession r p s) as [[c s'] evs]. cbn [fst snd] in *.
  subst c. cbn [app]. auto.
Qed.

(** X8. Stripping a malformed [session] parameter removes every pair of
    that name and nothing else: any other parameter reads as before. *)
Theorem invalid_session_param_keeps_other_params :
  forall (r : Render) (searchParams : URLSearchParams.t) (p k : jsstring)
         (s : Store B),
    URLSearchParams.get (str "session") searchParams = Some p ->
    p <> [] ->
    ~ uuid_format p ->
    k <> str "session" ->
    let after := search (location (store_after
                                     (sessionParamEffect r searchParams s))) in
    URLSearchParams.get k after = URLSearchParams.get k searchParams
    /\ (forall v, ~ In (str "session", v) after).
Proof.
  intros r searchParams p k s Hget Hp Hfmt Hk after. subst after.
  assert (Htest : uuidRegex_test p = false).
  { destruct (uuidRegex_test p) eqn:Ht; [|reflexivity].
    apply uuidRegex_test_spec in Ht. contradiction. }
  apply truthy_true in Hp.
  unfold sessionParamEffect. rewrite Hget, Hp, Htest.
  unfold_callbacks. reduce_run.
  split; [apply get_delete_other; assumption|].
  intros v. apply delete_drops_all.
Qed.

(** X9. Submitting while the hook is loading, or with a blank input, does
    nothing beyond [preventDefault]: no send, no request, the store and the
    input field are as they were. *)
Theorem handleSendMessage_guard :
  forall (r : Render) (input : jsstring) (isLoading : bool)
         (p : Page.t) (s : Store B),
    blank input \/ isLoading = true ->
    let x := handleSendMessage apiKey r input isLoading p s in
    page_completion x = Normal tt
    /\ page_after x = p
    /\ page_store_after x = s
    /\ page_emitted x = [DefaultPrevented].
Proof.
  intros r input isLoading p s H x. subst x.
  assert (Hguard : negb (truthy (trim input)) || isLoading = true).
  { destruct H as [H | ->]; [|apply orb_true_r].
    apply trim_guard in H. rewrite H. reflexivity. }
  unfold handleSendMessage, pbind, page_emit.
  rewrite Hguard. cbn. auto.
Qed.


(** X11. [fetchAgent] always completes and never touches the hook's state
    or the input field.  Without an id it sends nothing.  With one it sends
    a single lookup: a row that comes back without an error becomes the
    page's agent, with no toast; any other reply leaves the agent as it was
    and shows exactly one toast, "Error fetching agent". *)
Theorem fetchAgent_outcomes :
  forall (id : option jsstring) (p : Page.t) (s : Store B),
    let x := fetchAgent id p s in
    page_completion x = Normal tt
    /\ hook (page_store_after x) = hook s
    /\ Page.input (page_after x) = Page.input p
    /\ if truthy_opt id then
         requests (hook_events (page_emitted x)) = [SelectAgent (or_else id [])]
         /\ match fst (select_agent (or_else id []) (ext s)) with
            | Resolved (mkResult (Some row) None) =>
                Page.agent (page_after x) = Some row
                /\ toasts (hook_events (page_emitted x)) = []
            | _ =>
                Page.agent (page_after x) = Page.agent p
                /\ exists d,
                    toasts (hook_events (page_emitted x))
                    = [Toast.make (str "Error fetching agent") d destructive]
            end
       else
         requests (hook_events (page_emitted x)) = []
         /\ toasts (hook_events (page_emitted x)) = []
         /\ page_after x = p
         /\ page_store_after x = s.
Proof.
  intros id p s x.
  destruct x as [[[c p'] s'] evs] eqn:Hrun. subst x. revert Hrun.
  unfold fetchAgent.
  destruct id as [id|]; [destruct (truthy id) eqn:Hid|]; cbn [negb truthy_opt];
    rewrite ?Hid; cbn [or_else]; rewrite ?Hid.
  all: unfold_page; unfold_callbacks; branch_page; settle_run;
    reduce_run; reduce_page.
  all: repeat match goal with |- _ /\ _ => split end; try reflexivity.
  all: try (destruct p; reflexivity).
  all: eexists; reflexivity.
Qed.

End PageFacts.

(* ================================================================== *)
(** ** Memory and store in agreement *)

Lemma place_last (m : ChatMessage.t) (l : list ChatMessage.t) :
  Forall (fun x => older_or_same x m) l -> Cloud.place m l = l ++ [m].
Proof.
  induction 1 as [|x l Hx _ IH]; simpl; [reflexivity|].
  unfold older_or_same in Hx.
  replace (ChatMessage.created_at m <? ChatMessage.created_at x)%N with false
    by (symmetry; apply N.ltb_ge; exact Hx).
  rewrite IH. reflexivity.
Qed.

(** A row younger than all the others is ordered last. *)
Lemma order_by_created_at_snoc (rows : list ChatMessage.t)
      (m : ChatMessage.t) :
  Forall (fun x => older_or_same x m) rows ->
  Cloud.order_by_created_at (rows ++ [m])
  = Cloud.order_by_created_at rows ++ [m].
Proof.
  intros H. unfold Cloud.order_by_created_at. rewrite fold_left_app. simpl.
  apply place_last.
  destruct (order_by_created_at_sorts rows) as [Hperm _].
  unfold Cloud.order_by_created_at in Hperm.
  apply Forall_forall. intros x Hx.
  rewrite Forall_forall in H. apply H.
  apply (Permutation_in _ Hperm). exact Hx.
Qed.

(** What a turn stored at the clock adds to the ordered rows. *)
Lemma order_by_created_at_turn (rows : list ChatMessage.t)
      (sid content : jsstring) (reply : option jsstring) (t : Time) :
  Forall (fun m => (ChatMessage.created_at m < t)%N) rows ->
  Cloud.order_by_created_at (rows ++ stored_turn sid content reply t)
  = Cloud.order_by_created_at rows ++ stored_turn sid content reply t.
Proof.
  intros Hold.
  assert (H1 : Forall (fun x => older_or_same
                                  x (ChatMessage.make sid user content t))
                      rows).
  { eapply Forall_impl; [|exact Hold]. unfold older_or_same. cbn. intros; lia. }
  destruct reply as [text|]; unfold stored_turn.
  - change (rows ++ [ChatMessage.make sid user content t;
                     ChatMessage.make sid assistant text (t + 1)%N])
      with (rows ++ [ChatMessage.make sid user content t]
                 ++ [ChatMessage.make sid assistant text (t + 1)%N]).
    rewrite app_assoc, order_by_created_at_snoc.
    + rewrite order_by_created_at_snoc by exact H1.
      rewrite <- app_assoc. reflexivity.
    + apply Forall_app. split.
      * eapply Forall_impl; [|exact Hold].
        unfold older_or_same. cbn. intros; lia.
      * constructor; [|constructor]. unfold older_or_same. cbn. lia.
  - apply order_by_created_at_snoc. exact H1.
Qed.

Lemma message_rows_turn (sid content : jsstring) (reply : option jsstring)
      (t : Time) (msgs : list ChatMessage.t) :
  filter (fun row => JS.eqb (ChatMessage.session_id row) sid)
         (msgs ++ stored_turn sid content reply t)
  = filter (fun row => JS.eqb (ChatMessage.session_id row) sid) msgs
      ++ stored_turn sid content reply t.
Proof.
  rewrite filter_app. f_equal.
  destruct reply; cbn; rewrite !eqb_refl; reflexivity.
Qed.

Lemma spoken_stored (sid content : jsstring) (reply : option jsstring)
      (t : Time) :
  map to_message (stored_turn sid content reply t) = spoken_turn content reply.
Proof. destruct reply; reflexivity. Qed.

(** Case analysis on a run against the tables; [known] rewrites with what is
    known of them. *)
Ltac cloud_cases known :=
  repeat (cloud_run; known; cloud_run;
    match goal with
    | |- context [match ?x with _ => _ end] =>
        lazymatch x with
        | context [match _ with _ => _ end] => fail
        | _ => let y := first_test x in destruct y eqn:?
        end
    | |- context [if ?x then _ else _] =>
        lazymatch x with
        | context [match _ with _ => _ end] => fail
        | _ => let y := first_test x in destruct y eqn:?
        end
    end);
  cloud_run; known; cloud_run.

Ltac turn_stored :=
  first
    [ exists None; cbn [spoken_turn stored_turn];
      repeat split; reflexivity
    | eexists (Some _); cbn [spoken_turn stored_turn];
      rewrite <- !app_assoc; repeat split; try reflexivity;
      cbn [app]; try reflexivity; lia ].

(** A send under an existing session, served by the tables: what is shown
    is what is stored, whether or not a reply came. *)
Lemma sendMessage_stores_turn (apiKey : option jsstring) (r : Render)
      (u : User.t) (content sid : jsstring) (s : Store Cloud.t) :
  ~ blank content ->
  r_user r = Some u ->
  r_sessionId r = Some sid ->
  sid <> [] ->
  Cloud.script (ext s) = [] ->
  Cloud.session_rows sid (ext s) <> [] ->
  let s' := store_after (sendMessage apiKey r content s) in
  exists reply,
    messages (hook s') = messages (hook s) ++ spoken_turn content reply
    /\ sessionId (hook s') = sessionId (hook s)
    /\ Cloud.chat_messages (ext s')
       = Cloud.chat_messages (ext s)
           ++ stored_turn sid content reply (Cloud.clock (ext s))
    /\ Cloud.clock (ext s')
       = (Cloud.clock (ext s)
          + match reply with Some _ => 2 | None => 1 end)%N
    /\ Cloud.chat_sessions (ext s') = Cloud.chat_sessions (ext s)
    /\ Cloud.script (ext s') = [].
Proof.
  intros Hnb Hu Hsid Htr Hscript Hrows s'.
  apply not_blank_guard in Hnb. apply truthy_true in Htr.
  unfold store_after in s'.
  destruct (sendMessage apiKey r content s) as [[c s1] evs] eqn:Hrun.
  cbn [fst snd] in s'. subst s'. revert Hrun.
  unfold sendMessage. rewrite Hnb, Hu.
  unfold sendMessage_try. rewrite Hsid, Htr.
  destruct s as [h loc c0].
  destruct c0 as [ses msgs ags clk us scr gem].
  cbn [ext Cloud.script] in *. subst scr.
  unfold Cloud.session_rows in Hrows. cbn [Cloud.chat_sessions] in Hrows.
  destruct (filter _ ses) as [|row rows] eqn:Hfk; [contradiction|].
  unfold_callbacks.
  cloud_cases ltac:(rewrite ?eqb_refl, ?Hfk).
  all: settle_run; cloud_run.
  all: turn_stored.
Qed.

(** A first send, served by the tables: the session is created for the
    caller and the turn is stored under it. *)
Lemma sendMessage_creates_and_stores (apiKey : option jsstring) (r : Render)
      (u : User.t) (content : jsstring) (s : Store Cloud.t) :
  ~ blank content ->
  r_user r = Some u ->
  truthy_opt (r_sessionId r) = false ->
  Cloud.script (ext s) = [] ->
  let sid := fst (Cloud.do_randomUUID (ext s)) in
  truthy sid = true ->
  Cloud.session_rows sid (ext s) = [] ->
  let s' := store_after (sendMessage apiKey r content s) in
  exists reply created updated,
    messages (hook s') = messages (hook s) ++ spoken_turn content reply
    /\ sessionId (hook s') = Some sid
    /\ Cloud.chat_messages (ext s')
       = Cloud.chat_messages (ext s)
           ++ stored_turn sid content reply (Cloud.clock (ext s) + 2)%N
    /\ Cloud.clock (ext s')
       = (Cloud.clock (ext s) + 2
          + match reply with Some _ => 2 | None => 1 end)%N
    /\ Cloud.chat_sessions (ext s')
       = Cloud.chat_sessions (ext s)
           ++ [ChatSession.make sid (r_agentId r) (User.id u)
                                (str "New Chat") created updated]
    /\ Cloud.script (ext s') = [].
Proof.
  intros Hnb Hu Hnone Hscript sid Hfresh Hfree s'.
  apply not_blank_guard in Hnb.
  unfold store_after in s'.
  destruct (sendMessage apiKey r content s) as [[c s1] evs] eqn:Hrun.
  cbn [fst snd] in s'. subst s' sid. revert Hrun.
  unfold sendMessage. rewrite Hnb, Hu.
  unfold sendMessage_try, createChatSession. rewrite Hu.
  destruct s as [h loc c0].
  destruct c0 as [ses msgs ags clk us scr gem].
  cbn [ext Cloud.script] in *. subst scr.
  unfold Cloud.session_rows in Hfree. cbn [Cloud.chat_sessions] in Hfree.
  unfold_callbacks.
  destruct (r_sessionId r) as [sid0|]; cbn [truthy_opt] in Hnone;
    rewrite ?Hnone.
  all: destruct us as [|fresh us']; cbn [Cloud.do_randomUUID Cloud.uuids fst] in *.
  all: cloud_cases ltac:(created_session Hfree Hfresh).
  all: settle_run; cloud_run.
  all: replace (clk + 1 + 1)%N with (clk + 2)%N by lia.
  all: first
         [ exists None; eexists _, _; cbn [spoken_turn stored_turn];
           repeat split; try reflexivity; lia
         | eexists (Some _), _, _; cbn [spoken_turn stored_turn];
           rewrite <- !app_assoc; repeat split; try reflexivity;
           cbn [app]; try reflexivity;
           try (repeat f_equal; lia); lia ].
Qed.

(** [loadSession] of one's own session, served by the tables. *)
Lemma loadSession_served (r : Render) (u : User.t) (sid : jsstring)
      (row : ChatSession.t) (s : Store Cloud.t) :
  r_user r = Some u ->
  sid <> [] ->
  Cloud.script (ext s) = [] ->
  Cloud.session_rows sid (ext s) = [row] ->
  ChatSession.user_id row = User.id u ->
  let x := loadSession r sid s in
  completion x = Normal tt
  /\ messages (hook (store_after x))
     = map to_message
           (Cloud.order_by_created_at (Cloud.message_rows sid (ext s)))
  /\ sessionId (hook (store_after x)) = Some sid
  /\ isLoading (hook (store_after x)) = false
  /\ ext (store_after x) = ext s
  /\ existsb is_toast (emitted x) = false.
Proof.
  intros Hu Hsid Hscript Hrow Howner x.
  apply truthy_true in Hsid.
  subst x. unfold loadSession, loadSession_try. rewrite Hu, Hsid.
  destruct s as [h loc c]. cbn [ext] in *.
  unfold_callbacks. reduce_run.
  cbn [select_session select_messages Cloud.env].
  rewrite !(@request_served _ _ _ Hscript).
  unfold Cloud.do_select_session, Cloud.do_select_messages.
  reduce_run. rewrite Hrow.
  unfold Cloud.single, Cloud.ok. reduce_run.
  rewrite Howner, eqb_refl. reduce_run.
  rewrite !(@request_served _ _ _ Hscript). reduce_run.
  repeat split.
Qed.

(** X12. With a healthy backend, a first send from an empty chat brings the
    hook and the store into agreement: a session of the caller is created,
    it becomes the session of the hook, and the message list is exactly
    what loading that session would give, whether or not the generation
    function produced a reply. *)
Theorem first_send_mirrors_store :
  forall (apiKey : option jsstring) (r : Render) (u : User.t)
         (content : jsstring) (s : Store Cloud.t),
    ~ blank content ->
    r_user r = Some u ->
    truthy_opt (r_sessionId r) = false ->
    messages (hook s) = [] ->
    Cloud.script (ext s) = [] ->
    let sid := fst (Cloud.do_randomUUID (ext s)) in
    sid <> [] ->
    Cloud.session_rows sid (ext s) = [] ->
    Cloud.message_rows sid (ext s) = [] ->
    let s' := store_after (sendMessage apiKey r content s) in
    mirrors u sid s' /\ Cloud.script (ext s') = [].
Proof.
  intros apiKey r u content s Hnb Hu Hnone Hempty Hscript sid Hsid Hfree
         Hrows s'.
  assert (Htr : truthy sid = true) by (apply truthy_true; exact Hsid).
  destruct (@sendMessage_creates_and_stores apiKey r u content s
              Hnb Hu Hnone Hscript Htr Hfree)
    as (reply & created & updated & Hm & Hs & Hst & Hclk & Hses & Hscr).
  fold sid in Hm, Hs, Hst, Hclk, Hses, Hscr. fold s' in Hm, Hs, Hst, Hclk, Hses, Hscr.
  split; [|exact Hscr].
  unfold mirrors, Cloud.session_rows, Cloud.message_rows in *.
  rewrite Hs, Hses, Hst, Hm, Hempty, Hclk.
  rewrite message_rows_turn, Hrows, filter_app, Hfree.
  cbn [app filter ChatSession.id]. rewrite eqb_refl.
  repeat match goal with |- _ /\ _ => split end.
  - reflexivity.
  - exact Hsid.
  - eexists. split; reflexivity.
  - match goal with
    | |- context [Cloud.order_by_created_at (stored_turn ?a ?b ?c ?t)] =>
        pose proof (@order_by_created_at_turn [] a b c t (Forall_nil _)) as Ho
    end.
    change (Cloud.order_by_created_at []) with (@nil ChatMessage.t) in Ho.
    cbn [app] in Ho. rewrite Ho, spoken_stored. reflexivity.
  - destruct reply; cbn [stored_turn]; repeat constructor;
      cbn [ChatMessage.created_at]; lia.
Qed.

(** X13. With a healthy backend, a send keeps the hook and the store in
    agreement: from a state where the message list is what loading the
    current session would give, it still is afterwards, whether the
    generation function replied, failed or returned nothing. *)
Theorem send_keeps_mirror :
  forall (apiKey : option jsstring) (r : Render) (u : User.t)
         (content sid : jsstring) (s : Store Cloud.t),
    ~ blank content ->
    r_user r = Some u ->
    r_sessionId r = sessionId (hook s) ->
    Cloud.script (ext s) = [] ->
    mirrors u sid s ->
    let s' := store_after (sendMessage apiKey r content s) in
    mirrors u sid s' /\ Cloud.script (ext s') = [].
Proof.
  intros apiKey r u content sid s Hnb Hu Hsync Hscript
         (Hsid & Hne & (row & Hrow & Howner) & Hmsgs & Hold) s'.
  rewrite Hsid in Hsync.
  assert (Hfk : Cloud.session_rows sid (ext s) <> [])
    by (rewrite Hrow; discriminate).
  destruct (@sendMessage_stores_turn apiKey r u content sid s
              Hnb Hu Hsync Hne Hscript Hfk)
    as (reply & Hm & Hs & Hst & Hclk & Hses & Hscr).
  fold s' in Hm, Hs, Hst, Hclk, Hses, Hscr.
  split; [|exact Hscr].
  unfold mirrors, Cloud.session_rows, Cloud.message_rows in *.
  rewrite Hs, Hses, Hst, Hm, Hclk, Hsid, message_rows_turn.
  repeat match goal with |- _ /\ _ => split end.
  - reflexivity.
  - exact Hne.
  - exists row. split; assumption.
  - rewrite order_by_created_at_turn by exact Hold.
    rewrite map_app, spoken_stored, Hmsgs. reflexivity.
  - apply Forall_app. split.
    + eapply Forall_impl; [|exact Hold]. cbv beta. intros m Hm'.
      destruct reply; lia.
    + destruct reply; cbn [stored_turn]; repeat constructor;
        cbn [ChatMessage.created_at]; lia.
Qed.

(** X14. When the hook mirrors the store, loading the current session again
    changes nothing that is shown: the same messages in the same order,
    the same session, no toast, and the store is not written. *)
Theorem reload_of_mirrored_session_is_identity :
  forall (r : Render) (u : User.t) (sid : jsstring) (s : Store Cloud.t),
    r_user r = Some u ->
    Cloud.script (ext s) = [] ->
    mirrors u sid s ->
    let x := loadSession r sid s in
    completion x = Normal tt
    /\ messages (hook (store_after x)) = messages (hook s)
    /\ sessionId (hook (store_after x)) = sessionId (hook s)
    /\ ext (store_after x) = ext s
    /\ existsb is_toast (emitted x) = false
    /\ mirrors u sid (store_after x).
Proof.
  intros r u sid s Hu Hscript Hmir x.
  pose proof Hmir as (Hsid & Hne & (row & Hrow & Howner) & Hmsgs & Hold).
  destruct (@loadSession_served r u sid row s Hu Hne Hscript Hrow Howner)
    as (Hc & Hm & Hs & _ & Hext & Htoast).
  fold x in Hc, Hm, Hs, Hext, Htoast.
  repeat match goal with |- _ /\ _ => split end; try assumption.
  - rewrite Hm, Hmsgs. reflexivity.
  - rewrite Hs, Hsid. reflexivity.
  - unfold mirrors. rewrite Hs, Hm, Hext.
    repeat match goal with |- _ /\ _ => split end; try assumption;
      try reflexivity.
    exists row. split; assumption.
Qed.

(* ================================================================== *)
(** ** The session id pattern, position by position *)

Ltac spell g Hlen :=
  repeat (destruct g as [|? g]; simpl in Hlen;
          [try (exfalso; lia) | try (exfalso; lia)]).

Ltac at_position H n :=
  first [ exact (H n _ eq_refl)
        | lazymatch n with
          | S ?m => at_position H m
          end ].

(** X15. [uuidRegex] accepts exactly the strings of 36 code units with a
    hyphen at positions 8, 13, 18 and 23 and a hexadecimal digit of either
    case at every other position. *)
Theorem uuidRegex_accepts_by_position :
  forall (s : jsstring),
    uuidRegex_test s = true
    <-> List.length s = 36
        /\ forall i c, nth_error s i = Some c -> uuid_position_ok i c = true.
Proof.
  intros s. rewrite uuidRegex_test_spec. split.
  - intros (g1 & g2 & g3 & g4 & g5 & -> & [L1 F1] & [L2 F2] & [L3 F3]
            & [L4 F4] & [L5 F5]).
    spell g1 L1. spell g2 L2. spell g3 L3. spell g4 L4. spell g5 L5.
    split; [reflexivity|].
    repeat match goal with
           | H : Forall _ (_ :: _) |- _ => inversion H; clear H; subst
           | H : Forall _ [] |- _ => clear H
           end.
    intros i c Hi.
    do 36 (destruct i as [|i];
           [cbn in Hi; inversion Hi; subst; cbn; first [assumption | reflexivity]|]).
    cbn in Hi. destruct i; discriminate.
  - intros [Hlen H].
    spell s Hlen.
    pose proof (H 8 _ eq_refl) as H8. pose proof (H 13 _ eq_refl) as H13.
    pose proof (H 18 _ eq_refl) as H18. pose proof (H 23 _ eq_refl) as H23.
    cbn in H8, H13, H18, H23.
    apply N.eqb_eq in H8, H13, H18, H23. subst.
    match goal with
    | |- uuid_format [?a0; ?a1; ?a2; ?a3; ?a4; ?a5; ?a6; ?a7; _;
                      ?b0; ?b1; ?b2; ?b3; _; ?c0; ?c1; ?c2; ?c3; _;
                      ?d0; ?d1; ?d2; ?d3; _;
                      ?e0; ?e1; ?e2; ?e3; ?e4; ?e5; ?e6; ?e7; ?e8; ?e9;
                      ?e10; ?e11] =>
        exists [a0; a1; a2; a3; a4; a5; a6; a7], [b0; b1; b2; b3],
               [c0; c1; c2; c3], [d0; d1; d2; d3],
               [e0; e1; e2; e3; e4; e5; e6; e7; e8; e9; e10; e11]
    end.
    split; [reflexivity|].
    unfold hexGroup.
    repeat match goal with |- _ /\ _ => split end.
    all: try reflexivity.
    all: repeat (constructor; [at_position H 35|]).
    all: constructor.
Qed.

(* ================================================================== *)
(** ** The further properties at work in the demo world *)

(** Alice's state once her own session is loaded, and its render. *)
Lemma loaded_state_mirrors :
  mirrors Demo.alice Demo.alices_id
          (store_after (loadSession Demo.render Demo.alices_id (Demo.start []))).
Proof.
  unfold mirrors. repeat match goal with |- _ /\ _ => split end.
  - by_running.
  - discriminate.
  - exists Demo.alices_session. split; by_running.
  - by_running.
  - vm_compute. repeat constructor.
Qed.

(** A message written under a session that does not exist is refused by
    the tables, and [saveMessage] says nothing. *)
Lemma saveMessage_ignores_witness :
  existsb is_error_log
          (emitted (saveMessage (mkMessage user (str "hi"))
                                (str "no-such-session") (Demo.start [])))
  = false.
Proof.
  destruct (@saveMessage_ignores_reported_error
              Cloud.t Cloud.env (mkMessage user (str "hi"))
              (str "no-such-session") (Demo.start [])
              (Cloud.err
                 "insert or update on table violates foreign key constraint")
              (mkError
                 (str "insert or update on table violates foreign key constraint"))
              (Demo.cloud []))
    as (_ & _ & _ & Hev).
  - by_running.
  - reflexivity.
  - rewrite Hev. reflexivity.
Defined.

(** Alice sends from a render that has her session: no session is made. *)
Lemma sendMessage_with_session_witness :
  let r := mkRender (str "agent-1") (Some Demo.alice) [] (Some Demo.alices_id) in
  sessionId (hook (store_after (sendMessage Demo.key r (str "hi") (Demo.start []))))
  = sessionId (hook (Demo.start [])).
Proof.
  cbv zeta.
  destruct (@sendMessage_with_session_requests
              Cloud.t Cloud.env Demo.key
              (mkRender (str "agent-1") (Some Demo.alice) [] (Some Demo.alices_id))
              Demo.alice (str "hi") Demo.alices_id (Demo.start []))
    as (Hs & _).
  - exact hi_is_not_blank.
  - reflexivity.
  - reflexivity.
  - discriminate.
  - exact Hs.
Defined.

(** Alice's first send asks for a session row of hers. *)
Lemma sendMessage_without_session_witness :
  exists created updated inserted rest,
    exchanges (emitted (sendMessage Demo.key Demo.render (str "hi")
                                    (Demo.start [])))
    = (InsertSession
         (ChatSession.make (str "aaaaaaaa-bbbb-4ccc-8ddd-eeeeeeeeeeee")
                           (str "agent-1") (str "alice") (str "New Chat")
                           created updated),
       inserted) :: rest.
Proof.
  destruct (@sendMessage_without_session_requests
              Cloud.t Cloud.env Demo.key Demo.render Demo.alice (str "hi")
              (Demo.start []))
    as (created & updated & inserted & rest & Hx & _).
  - exact hi_is_not_blank.
  - reflexivity.
  - reflexivity.
  - exists created, updated, inserted, rest. exact Hx.
Defined.

(** [?session=<Alice's session>] is loaded and the URL stays. *)
Lemma valid_session_param_witness :
  let params := [(str "session", Demo.alices_id)] in
  location (store_after (sessionParamEffect Demo.render params (Demo.start [])))
  = location (Demo.start []).
Proof.
  cbv zeta.
  destruct (@valid_session_param_is_loaded
              Cloud.t Cloud.env Demo.render
              [(str "session", Demo.alices_id)] Demo.alices_id (Demo.start []))
    as (_ & _ & _ & Hloc).
  - reflexivity.
  - apply uuidRegex_test_spec. by_running.
  - exact Hloc.
Defined.

(** [?tab=1&session=oops]: [tab] survives the stripping. *)
Lemma invalid_session_param_keeps_witness :
  let params := [(str "tab", str "1"); (str "session", str "oops")] in
  URLSearchParams.get
    (str "tab")
    (search (location (store_after
                         (sessionParamEffect Demo.render params (Demo.start [])))))
  = Some (str "1").
Proof.
  cbv zeta.
  destruct (@invalid_session_param_keeps_other_params
              Cloud.t Cloud.env Demo.render
              [(str "tab", str "1"); (str "session", str "oops")]
              (str "oops") (str "tab") (Demo.start []))
    as (Hget & _).
  - reflexivity.
  - discriminate.
  - intros H. apply uuidRegex_test_spec in H. vm_compute in H. discriminate H.
  - intros H. vm_compute in H. discriminate H.
  - rewrite Hget. reflexivity.
Defined.

(** A second submit while the first is in flight does nothing. *)
Lemma handleSendMessage_guard_witness :
  page_store_after (handleSendMessage Demo.key Demo.render (str "hi") true
                                      (Page.make None (str "hi"))
                                      (Demo.start []))
  = Demo.start [].
Proof.
  destruct (@handleSendMessage_guard
              Cloud.t Cloud.env Demo.key Demo.render (str "hi") true
              (Page.make None (str "hi")) (Demo.start []))
    as (_ & _ & Hs & _).
  - right. reflexivity.
  - exact Hs.
Defined.


(** Alice's first send leaves hook and store in agreement. *)
Lemma first_send_mirrors_witness :
  mirrors Demo.alice (str "aaaaaaaa-bbbb-4ccc-8ddd-eeeeeeeeeeee")
          (store_after (sendMessage Demo.key Demo.render (str "hi")
                                    (Demo.start []))).
Proof.
  destruct (@first_send_mirrors_store
              Demo.key Demo.render Demo.alice (str "hi") (Demo.start []))
    as (Hm & _).
  - exact hi_is_not_blank.
  - reflexivity.
  - reflexivity.
  - reflexivity.
  - reflexivity.
  - vm_compute. discriminate.
  - by_running.
  - by_running.
  - exact Hm.
Defined.

(** So does a send in the session Alice has loaded. *)
Lemma send_keeps_mirror_witness :
  let s1 := store_after (loadSession Demo.render Demo.alices_id (Demo.start [])) in
  let r1 := mkRender (str "agent-1") (Some Demo.alice)
                     (messages (hook s1)) (sessionId (hook s1)) in
  mirrors Demo.alice Demo.alices_id
          (store_after (sendMessage Demo.key r1 (str "hi") s1)).
Proof.
  cbv zeta.
  destruct (@send_keeps_mirror
              Demo.key
              (mkRender (str "agent-1") (Some Demo.alice)
                 (messages (hook (store_after
                    (loadSession Demo.render Demo.alices_id (Demo.start [])))))
                 (sessionId (hook (store_after
                    (loadSession Demo.render Demo.alices_id (Demo.start []))))))
              Demo.alice (str "hi") Demo.alices_id
              (store_after (loadSession Demo.render Demo.alices_id
                                        (Demo.start []))))
    as (Hm & _).
  - exact hi_is_not_blank.
  - reflexivity.
  - reflexivity.
  - by_running.
  - exact loaded_state_mirrors.
  - exact Hm.
Defined.

(** Loading the loaded session again shows the same two messages. *)
Lemma reload_witness :
  let s1 := store_after (loadSession Demo.render Demo.alices_id (Demo.start [])) in
  messages (hook (store_after (loadSession Demo.render Demo.alices_id s1)))
  = messages (hook s1).
Proof.
  cbv zeta.
  destruct (@reload_of_mirrored_session_is_identity
              Demo.render Demo.alice Demo.alices_id
              (store_after (loadSession Demo.render Demo.alices_id
                                        (Demo.start []))))
    as (_ & Hm & _).
  - reflexivity.
  - by_running.
  - exact loaded_state_mirrors.
  - exact Hm.
Defined.

(** Alice's session id has 36 code units, as every accepted id. *)
Lemma uuidRegex_position_witness : List.length Demo.alices_id = 36.
Proof.
  apply (proj1 (uuidRegex_accepts_by_position Demo.alices_id)).
  by_running.
Defined.
